(** * A storage node of the distributed object store: store, membership, replication

    Shallow embedding of three Go packages of the repository and the
    properties of the specification that concern them:

    - [internal/cluster/node.go]        membership table and placement queries
    - [internal/storage/filestore.go]   the local object store
    - [internal/replication/manager.go] the replication coordinator

    Conventions of the embedding.
    - Go [int64] and [int] values are integers in [Z]; where the code does
      arithmetic on them the wrap-around is written out ([int64_wrap]).
    - Go [float64] values are IEEE 754 binary64 numbers, given by the
      Standard Library's executable specification [SpecFloat] at precision 53
      and maximal exponent 1024.
    - [time.Time] is a number of nanoseconds; [time.Now()] is an input of the
      operation that reads the clock.
    - A Go [map] is a [gmap]. A [for ... range] loop over a map visits every
      key once in an order the runtime chooses: the order of one such loop is
      an explicit argument ([order : list string]) of the function that
      contains the loop.
    - The file system, the HTTP peers and the readers handed to the store are
      the environment: their answers are explicit arguments.
    - A run-time panic is the result [None] of a function returning [option]. *)

From Stdlib Require Import ZArith Lia Bool.
From Stdlib Require Import Strings.Ascii Strings.String Strings.Byte.
From Stdlib Require DecimalString.
From Stdlib Require Import Floats.SpecFloat.
From Ceres Require Ceres.
From stdpp Require Import base option list gmap strings fin_maps.

Local Open Scope string_scope.
Local Open Scope list_scope.
Local Open Scope Z_scope.

(** ** Machine numbers *)

Module Int64.

Definition min_int : Z := - 2 ^ 63.
Definition max_int : Z := 2 ^ 63 - 1.

Definition in_range (x : Z) : Prop := min_int <= x <= max_int.

(** Two's complement wrap-around of a mathematical result into [int64]. *)
Definition int64_wrap (x : Z) : Z := (x + 2 ^ 63) mod 2 ^ 64 - 2 ^ 63.

(** [x++] on an [int64]. *)
Definition incr (x : Z) : Z := int64_wrap (x + 1).

End Int64.

Module Float64.

Definition prec : Z := 53.
Definition emax : Z := 1024.

(** [float64(x)] for an integer [x]: rounding to nearest, ties to even. *)
Definition of_int (x : Z) : spec_float := binary_normalize prec emax x 0 false.

Definition div (x y : spec_float) : spec_float := SFdiv prec emax x y.

(** The comparison [x < y] of Go, false as soon as one side is a NaN. *)
Definition ltb (x y : spec_float) : bool := SFltb x y.
Definition leb (x y : spec_float) : bool := SFleb x y.

(** The literal [1.0]. *)
Definition one : spec_float := of_int 1.

End Float64.

(** ** Time *)

Definition Time : Type := Z.

Module Duration.
Definition Second : Z := 1000000000.

(** [t.Sub(u)]: the difference, saturated to the range of [int64]
    nanoseconds as the [time] package does. *)
Definition Sub (t u : Time) : Z :=
  Z.max Int64.min_int (Z.min Int64.max_int (t - u)).
End Duration.

(** ** Iterating over a Go map *)

Section Range.
Context {V : Type}.

(** The values a [range] loop sees when it visits the keys in [order]. *)
Definition range_values (m : gmap string V) (order : list string) : list V :=
  omap (λ k, m !! k) order.

(** [order] is a possible visiting order of [m]: every key of the map,
    once. *)
Definition range_order (m : gmap string V) (order : list string) : Prop :=
  NoDup order ∧ ∀ k, k ∈ order ↔ is_Some (m !! k).
End Range.

(** ** internal/cluster/node.go *)

Module Cluster.

Record Node : Type := mkNode {
  ID : string;
  Address : string;
  Status : string;        (* healthy, unhealthy, unknown *)
  LastSeen : Time;
  Load : spec_float;
  Capacity : Z;           (* int64 *)
  Used : Z                (* int64 *)
}.

Definition set_Status (s : string) (n : Node) : Node :=
  mkNode (ID n) (Address n) s (LastSeen n) (Load n) (Capacity n) (Used n).

Definition set_LastSeen (t : Time) (n : Node) : Node :=
  mkNode (ID n) (Address n) (Status n) t (Load n) (Capacity n) (Used n).

(** [nodes] holds the table [map[string]*Node]; [currentNode] is the node
    allocated by the constructor.  The constructor stores the same pointer
    under the node's own ID; [RegisterNode] is only ever handed a freshly
    decoded node ([HandleNodeRegistration]), so table entries never alias
    each other and each entry is kept by value. *)
Record ClusterManager : Type := mkClusterManager {
  nodes : gmap string Node;
  currentNode : Node
}.

Definition default_capacity : Z := 10 * 1024 * 1024 * 1024.

Definition NewClusterManager (nodeID nodeAddress : string) (now : Time)
  : ClusterManager :=
  let self := mkNode nodeID nodeAddress "healthy" now (S754_zero false)
                     default_capacity 0 in
  mkClusterManager (<[nodeID := self]> ∅) self.

Definition RegisterNode (cm : ClusterManager) (node : Node) (now : Time)
  : ClusterManager :=
  let node := set_LastSeen now node in
  mkClusterManager (<[ID node := node]> (nodes cm)) (currentNode cm).

(** Modelled from the spec: [GetCurrentNode] is called by the replication
    manager but is not declared in node.go; it returns the one node that
    is "self" for the process. *)
Definition GetCurrentNode (cm : ClusterManager) : Node := currentNode cm.

Definition GetHealthyNodes (cm : ClusterManager) (order : list string)
  : list Node :=
  filter (λ node, Status node = "healthy") (range_values (nodes cm) order).

Definition utilization (node : Node) : spec_float :=
  Float64.div (Float64.of_int (Used node)) (Float64.of_int (Capacity node)).

(** One iteration of the selection loop on the pair
    [(bestNode, lowestLoad)]. *)
Definition lowest_step (acc : option Node * spec_float) (node : Node)
  : option Node * spec_float :=
  if Float64.ltb (utilization node) acc.2
  then (Some node, utilization node)
  else acc.

Definition SelectNodeForWrite (cm : ClusterManager) (order : list string)
  : option Node :=
  let nodes := GetHealthyNodes cm order in
  if decide (length nodes = 0%nat) then None
  else (foldl lowest_step (None, Float64.one) nodes).1.

(** The copying loop [for i := 0; i < count && i < len(nodes); i++].  It
    runs at most [len(nodes)] times, which is the fuel it is given. *)
Fixpoint copy_loop (fuel : nat) (i count : Z) (nodes selected : list Node)
  : list Node :=
  match fuel with
  | O => selected
  | S fuel' =>
      if bool_decide (i < count ∧ i < Z.of_nat (length nodes)) then
        match nodes !! Z.to_nat i with
        | Some node => copy_loop fuel' (i + 1) count nodes (selected ++ [node])
        | None => selected
        end
      else selected
  end.

(** [None] is the run-time panic of [make([]*Node, 0, count)] for a
    negative capacity. *)
Definition SelectNodesForReplication (cm : ClusterManager) (count : Z)
    (order : list string) : option (list Node) :=
  let nodes := GetHealthyNodes cm order in
  if decide (Z.of_nat (length nodes) <= count) then Some nodes
  else if decide (count < 0) then None
  else Some (copy_loop (length nodes) 0 count nodes []).

Definition stale_after : Z := 60 * Duration.Second.

(** The body of the sweep for the table key [nodeID]; [pingNode] is the
    answer of the peer's health endpoint during this sweep. *)
Definition check_node (self : string) (now : Time) (pingNode : Node → bool)
    (table : gmap string Node) (nodeID : string) : gmap string Node :=
  match table !! nodeID with
  | None => table
  | Some node =>
      if decide (nodeID = self) then table
      else if decide (Duration.Sub now (LastSeen node) > stale_after) then
        <[nodeID := set_Status "unhealthy" node]> table
      else if pingNode node then
        <[nodeID := set_LastSeen now (set_Status "healthy" node)]> table
      else
        <[nodeID := set_Status "unhealthy" node]> table
  end.

Definition performHealthCheck (cm : ClusterManager) (now : Time)
    (pingNode : Node → bool) (order : list string) : ClusterManager :=
  mkClusterManager
    (foldl (check_node (ID (currentNode cm)) now pingNode) (nodes cm) order)
    (currentNode cm).

(** What the pair [(bestNode, lowestLoad)] means once the loop has visited
    the nodes [visited]. *)
Definition lowest_so_far (visited : list Node) (acc : option Node * spec_float)
  : Prop :=
  match acc.1 with
  | None =>
      acc.2 = Float64.one ∧
      ∀ node, node ∈ visited →
        Float64.ltb (utilization node) Float64.one = false
  | Some best =>
      acc.2 = utilization best ∧
      Float64.ltb (utilization best) Float64.one = true ∧
      ∃ before after,
        visited = before ++ best :: after ∧
        (∀ node, node ∈ before →
           Float64.leb (utilization node) (utilization best) = false) ∧
        (∀ node, node ∈ after →
           Float64.ltb (utilization node) (utilization best) = false)
  end.

(** The table holds, under the ID of the current node, a healthy node. *)
Definition self_healthy (cm : ClusterManager) : Prop :=
  ∃ self, nodes cm !! ID (currentNode cm) = Some self ∧
          Status self = "healthy".

(** No node of the table other than the process itself is healthy. *)
Definition no_healthy_peer (cm : ClusterManager) : Prop :=
  ∀ k node,
    nodes cm !! k = Some node →
    k ≠ ID (currentNode cm) →
    Status node ≠ "healthy".

End Cluster.

(** ** pkg/models *)

Module Models.

Record ReplicaInfo : Type := mkReplicaInfo {
  NodeID : string;
  FilePath : string;
  Status : string         (* active, syncing, failed *)
}.

Record StorageObject : Type := mkStorageObject {
  ID : string;
  Key : string;
  Size : Z;               (* int64 *)
  ContentType : string;
  Checksum : string;
  CreatedAt : Time;
  UpdatedAt : Time;
  AccessCount : Z;        (* int64 *)
  LastAccess : Time;
  Metadata : gmap string string;
  StorageTier : string;   (* hot, warm, cold *)
  Replicas : list ReplicaInfo
}.

Definition set_AccessCount (c : Z) (o : StorageObject) : StorageObject :=
  mkStorageObject (ID o) (Key o) (Size o) (ContentType o) (Checksum o)
    (CreatedAt o) (UpdatedAt o) c (LastAccess o) (Metadata o)
    (StorageTier o) (Replicas o).

Definition set_LastAccess (t : Time) (o : StorageObject) : StorageObject :=
  mkStorageObject (ID o) (Key o) (Size o) (ContentType o) (Checksum o)
    (CreatedAt o) (UpdatedAt o) (AccessCount o) t (Metadata o)
    (StorageTier o) (Replicas o).

End Models.

(** ** Readers, formatting and paths *)

(** An [io.Reader] as the code consumes it: the bytes it delivers, then
    either end of file or a read error. *)
Record Reader : Type := mkReader {
  content : list Byte.byte;
  failure : option string
}.

(** What happened to the calls of a function that can return normally,
    return an error or panic. *)
Inductive outcome (A E : Type) : Type :=
  | Returned (a : A)
  | Failed (e : E)
  | Panicked.
Arguments Returned {A E} a.
Arguments Failed {A E} e.
Arguments Panicked {A E}.

Module Fmt.

Definition hex_digit (n : N) : Ascii.ascii :=
  match n with
  | 0 => "0" | 1 => "1" | 2 => "2" | 3 => "3" | 4 => "4" | 5 => "5"
  | 6 => "6" | 7 => "7" | 8 => "8" | 9 => "9" | 10 => "a" | 11 => "b"
  | 12 => "c" | 13 => "d" | 14 => "e" | _ => "f"
  end%N%char.

Definition hex_byte (b : Byte.byte) : string :=
  let n := Byte.to_N b in
  String (hex_digit (n / 16)) (String (hex_digit (n mod 16)) EmptyString).

(** [fmt.Sprintf("%x", bs)] for a byte slice or array. *)
Definition Sprintf_x (bs : list Byte.byte) : string :=
  foldr (λ b s, hex_byte b +:+ s) "" bs.

End Fmt.

Module Filepath.
(** [filepath.Join(dir, name)] for a directory and one more element; the
    lexical cleaning of the result ([filepath.Clean]) is left out, so a
    path is spelled the way it was assembled. *)
Definition Join (dir name : string) : string := dir +:+ "/" +:+ name.
End Filepath.

(** ** internal/storage/filestore.go *)

Module Storage.

Import Models.

(** The files of the host: path to content. *)
Abbreviation Disk := (gmap string (list Byte.byte)).

Inductive error : Type :=
  | ErrCreateFile (cause : string)     (* "failed to create file: ..." *)
  | ErrWriteData (cause : string)      (* "failed to write data: ..." *)
  | ErrNotFound (key : string)         (* "object not found: ..." *)
  | ErrOpenFile (path : string).       (* "failed to open file: ..." *)

Record FileStore : Type := mkFileStore {
  basePath : string;
  metadataPath : string;
  objects : gmap string StorageObject
}.

Definition set_objects (m : gmap string StorageObject) (fs : FileStore)
  : FileStore :=
  mkFileStore (basePath fs) (metadataPath fs) m.

(** How the host can fail [os.WriteFile]: the file cannot be opened, and
    is left as it was (absent, if it did not exist); or it is opened, which
    empties it, and takes [n] bytes before a write or the close fails. *)
Inductive WriteFault : Type :=
  | OpenRefused
  | WriteCut (n : nat).

(** [os.WriteFile(path, data, 0644)], with the fault of the host if it
    fails. *)
Definition os_WriteFile (path : string) (data : list Byte.byte)
    (fault : option WriteFault) (disk : Disk) : Disk :=
  match fault with
  | None => <[path := data]> disk
  | Some OpenRefused => disk
  | Some (WriteCut n) => <[path := take n data]> disk
  end.

(** The readings of the clock and the faults of the host during one call
    of [Put]. *)
Record PutEnv : Type := mkPutEnv {
  now_String : string;     (* time.Now().String() in the object ID *)
  now_CreatedAt : Time;
  now_UpdatedAt : Time;
  now_LastAccess : Time;
  create_fault : option string;        (* os.Create fails *)
  write_fault : option (nat * string); (* the file accepts [n] bytes, then
                                          a write fails *)
  save_fault : option WriteFault       (* os.WriteFile of the index
                                          document fails *)
}.

Inductive copy_result : Type :=
  | CopyDone (written : list Byte.byte)
  | CopyFailed (written : list Byte.byte) (cause : string).

(** [io.Copy(io.MultiWriter(file, hasher), data)]: the bytes that reached
    the file and whether the copy ended at end of file. *)
Definition io_Copy (data : Reader) (fault : option (nat * string))
  : copy_result :=
  let read_all :=
    match failure data with
    | Some cause => CopyFailed (content data) cause
    | None => CopyDone (content data)
    end in
  match fault with
  | Some (n, cause) =>
      if decide (n < length (content data))%nat
      then CopyFailed (take n (content data)) cause
      else read_all
  | None => read_all
  end.

Section FileStore.

(** [md5.Sum] and [hash.Hash.Sum] of the bytes written so far. *)
Variable md5_Sum : list Byte.byte → list Byte.byte.
(** The bytes [json.MarshalIndent] returns for an index (none, if it
    fails: [saveMetadata] drops its error and writes what it got), and the
    index [json.Unmarshal] reads back from a document. *)
Variable json_Marshal : gmap string StorageObject → list Byte.byte.
Variable json_Unmarshal : list Byte.byte → gmap string StorageObject.

Definition metadata_file (fs : FileStore) : string :=
  Filepath.Join (metadataPath fs) "objects.json".

(** [saveMetadata] drops the error of [os.WriteFile] as well: after a
    write that failed the index document is absent, stale or cut short, and
    the caller goes on. *)
Definition saveMetadata (fs : FileStore) (disk : Disk)
    (fault : option WriteFault) : Disk :=
  os_WriteFile (metadata_file fs) (json_Marshal (objects fs)) fault disk.

Definition loadMetadata (fs : FileStore) (disk : Disk) : FileStore :=
  match disk !! metadata_file fs with
  | None => fs
  | Some data => set_objects (json_Unmarshal data) fs
  end.

Definition NewFileStore (basePath : string) (disk : Disk) : FileStore :=
  loadMetadata
    (mkFileStore basePath (Filepath.Join basePath "metadata") ∅) disk.

Definition object_id (key : string) (env : PutEnv) : string :=
  Fmt.Sprintf_x (md5_Sum (list_byte_of_string (key +:+ now_String env))).

Definition Put (fs : FileStore) (disk : Disk) (key : string)
    (data : Reader) (contentType : string) (env : PutEnv)
  : outcome StorageObject error * FileStore * Disk :=
  let objectID := object_id key env in
  let filePath := Filepath.Join (basePath fs) objectID in
  match create_fault env with
  | Some cause => (Failed (ErrCreateFile cause), fs, disk)
  | None =>
      let disk := <[filePath := []]> disk in
      match io_Copy data (write_fault env) with
      | CopyFailed written cause =>
          let disk := <[filePath := written]> disk in
          (Failed (ErrWriteData cause), fs, delete filePath disk)
      | CopyDone written =>
          let disk := <[filePath := written]> disk in
          let checksum := Fmt.Sprintf_x (md5_Sum written) in
          let obj :=
            mkStorageObject objectID key (Z.of_nat (length written))
              contentType checksum (now_CreatedAt env) (now_UpdatedAt env)
              0 (now_LastAccess env) ∅ "hot"
              [mkReplicaInfo "node-1" filePath "active"] in
          let fs := set_objects (<[key := obj]> (objects fs)) fs in
          (Returned obj, fs, saveMetadata fs disk (save_fault env))
      end
  end.

(** The index holds pointers, and [Get] updates the statistics through the
    pointer it found: the entry under the key is replaced by the updated
    record, which is also the descriptor returned.  The stream returned is
    given by the bytes of the opened file.  [Panicked] is the index error
    of [obj.Replicas[0]] on an entry without replicas.  [now] is the
    reading of the clock, [fault] the fault of the host when the index
    document is written. *)
Definition Get (fs : FileStore) (disk : Disk) (key : string) (now : Time)
    (fault : option WriteFault)
  : outcome (list Byte.byte * StorageObject) error * FileStore * Disk :=
  match objects fs !! key with
  | None => (Failed (ErrNotFound key), fs, disk)
  | Some obj =>
      let obj := set_AccessCount (Int64.incr (AccessCount obj)) obj in
      let obj := set_LastAccess now obj in
      let fs := set_objects (<[key := obj]> (objects fs)) fs in
      let disk := saveMetadata fs disk fault in
      match Replicas obj with
      | [] => (Panicked, fs, disk)
      | replica :: _ =>
          match disk !! FilePath replica with
          | None => (Failed (ErrOpenFile (FilePath replica)), fs, disk)
          | Some bytes => (Returned (bytes, obj), fs, disk)
          end
      end
  end.

Definition Delete (fs : FileStore) (disk : Disk) (key : string)
    (fault : option WriteFault)
  : option error * FileStore * Disk :=
  match objects fs !! key with
  | None => (Some (ErrNotFound key), fs, disk)
  | Some obj =>
      let disk :=
        foldl (λ d replica, delete (FilePath replica) d) disk
              (Replicas obj) in
      let fs := set_objects (delete key (objects fs)) fs in
      (None, fs, saveMetadata fs disk fault)
  end.

Definition List (fs : FileStore) : gmap string StorageObject := objects fs.

(** The store keeps its index document in the metadata directory of its
    storage root, as [NewFileStore] sets it up. *)
Definition rooted (fs : FileStore) : Prop :=
  metadataPath fs = Filepath.Join (basePath fs) "metadata".

(** The path of the payload file [Put] writes. *)
Definition payload_file (fs : FileStore) (key : string) (env : PutEnv)
  : string :=
  Filepath.Join (basePath fs) (object_id key env).

End FileStore.

End Storage.

(** ** internal/replication/manager.go *)

Module Replication.

Import Models.

Record ReplicationTask : Type := mkReplicationTask {
  ObjectID : string;
  ObjectKey : string;
  SourceNode : string;
  TargetNodes : list string;
  Status : string;        (* pending, in_progress, completed, failed *)
  CreatedAt : Time;
  CompletedAt : option Time;
  Error : string
}.

Definition set_Status (s : string) (t : ReplicationTask) : ReplicationTask :=
  mkReplicationTask (ObjectID t) (ObjectKey t) (SourceNode t) (TargetNodes t)
    s (CreatedAt t) (CompletedAt t) (Error t).

Definition set_CompletedAt (c : option Time) (t : ReplicationTask)
  : ReplicationTask :=
  mkReplicationTask (ObjectID t) (ObjectKey t) (SourceNode t) (TargetNodes t)
    (Status t) (CreatedAt t) c (Error t).

Definition set_Error (e : string) (t : ReplicationTask) : ReplicationTask :=
  mkReplicationTask (ObjectID t) (ObjectKey t) (SourceNode t) (TargetNodes t)
    (Status t) (CreatedAt t) (CompletedAt t) e.

Inductive error : Type :=
  | ErrNoHealthyNodes.    (* "no healthy nodes available for replication" *)

(** A call of [go rm.executeReplication(task, obj, data)] that has been
    started and has not run yet. *)
Record Goroutine : Type := mkGoroutine {
  go_task : nat;
  go_obj : nat;
  go_data : Reader
}.

(** The replication manager together with the memory its pointers refer
    to.  A [*ReplicationTask] is an index into [task_heap] and a
    [*models.StorageObject] an index into [object_heap], so that the record
    a goroutine updates through its pointer is the record the task map
    shows. *)
Record ReplicationManager : Type := mkReplicationManager {
  clusterManager : Cluster.ClusterManager;
  replicationFactor : Z;
  pendingReplications : gmap string nat;
  task_heap : list ReplicationTask;
  object_heap : list StorageObject;
  goroutines : list Goroutine
}.

Definition set_pendingReplications (m : gmap string nat)
    (rm : ReplicationManager) : ReplicationManager :=
  mkReplicationManager (clusterManager rm) (replicationFactor rm) m
    (task_heap rm) (object_heap rm) (goroutines rm).

Definition set_task_heap (h : list ReplicationTask)
    (rm : ReplicationManager) : ReplicationManager :=
  mkReplicationManager (clusterManager rm) (replicationFactor rm)
    (pendingReplications rm) h (object_heap rm) (goroutines rm).

Definition set_goroutines (g : list Goroutine)
    (rm : ReplicationManager) : ReplicationManager :=
  mkReplicationManager (clusterManager rm) (replicationFactor rm)
    (pendingReplications rm) (task_heap rm) (object_heap rm) g.

(** [rm.pendingReplications.Store(key, task)]. *)
Definition Store (key : string) (task : nat) (rm : ReplicationManager)
  : ReplicationManager :=
  set_pendingReplications (<[key := task]> (pendingReplications rm)) rm.

(** An assignment through the task pointer. *)
Definition update_task (task : nat) (f : ReplicationTask → ReplicationTask)
    (rm : ReplicationManager) : ReplicationManager :=
  set_task_heap (alter f task (task_heap rm)) rm.

Definition NewReplicationManager (cm : Cluster.ClusterManager)
    (replicationFactor : Z) : ReplicationManager :=
  mkReplicationManager cm replicationFactor ∅ [] [] [].

(** [None] is a panic: the one of [SelectNodesForReplication], or the
    dereference of a pointer that refers to no object. *)
Definition ReplicateObject (rm : ReplicationManager) (obj : nat)
    (data : Reader) (order : list string) (now : Time)
  : option (option error * ReplicationManager) :=
  targetNodes ←
    Cluster.SelectNodesForReplication (clusterManager rm)
      (replicationFactor rm) order;
  if decide (length targetNodes = 0%nat) then
    Some (Some ErrNoHealthyNodes, rm)
  else
    o ← object_heap rm !! obj;
    let task :=
      mkReplicationTask (ID o) (Key o)
        (Cluster.ID (Cluster.GetCurrentNode (clusterManager rm)))
        (Cluster.ID <$> targetNodes) "pending" now None "" in
    let p := length (task_heap rm) in
    let rm := set_task_heap (task_heap rm ++ [task]) rm in
    let rm := Store (ID o) p rm in
    let rm := set_goroutines (goroutines rm ++ [mkGoroutine p obj data]) rm in
    Some (None, rm).

Record Request : Type := mkRequest {
  Method : string;
  URL : string;
  Header : list (string * string);
  Body : list Byte.byte
}.

(** The peers and the clock as one run of [executeReplication] meets
    them. *)
Record Env : Type := mkEnv {
  (* the order of the loop of [GetHealthyNodes] in the transfer to a target *)
  healthy_order : string → list string;
  (* [http.NewRequest] accepts the URL *)
  url_ok : string → bool;
  (* [rm.client.Do]: the status code of the answer, or a transport error *)
  client_Do : Request → option Z;
  (* [time.Now()] when the task is concluded *)
  now_CompletedAt : Time
}.

Definition StatusOK : Z := 200.

Definition replicateToNode (rm : ReplicationManager) (env : Env)
    (nodeID : string) (obj : StorageObject) (data : list Byte.byte) : bool :=
  let nodes :=
    Cluster.GetHealthyNodes (clusterManager rm) (healthy_order env nodeID) in
  match List.find (λ node, bool_decide (Cluster.ID node = nodeID)) nodes with
  | None => false
  | Some targetNode =>
      let url :=
        "http://" +:+ Cluster.Address targetNode +:+ "/internal/replicate/"
          +:+ Key obj in
      if url_ok env url then
        let req :=
          mkRequest "PUT" url
            [("Content-Type", ContentType obj);
             ("X-Object-ID", ID obj);
             ("X-Checksum", Checksum obj);
             ("X-Replication-Source",
              Cluster.ID (Cluster.GetCurrentNode (clusterManager rm)))]
            data in
        match client_Do env req with
        | None => false
        | Some code => bool_decide (code = StatusOK)
        end
      else false
  end.

Definition markTaskFailed (task : nat) (errorMsg : string) (now : Time)
    (rm : ReplicationManager) : ReplicationManager :=
  update_task task
    (λ t, set_CompletedAt (Some now) (set_Error errorMsg (set_Status "failed" t)))
    rm.

(** The number of transfers that returned [true].  Each transfer runs in
    a goroutine of its own and adds one to [successCount] under the mutex;
    [wg.Wait()] returns when all of them have finished. *)
Definition fan_out (rm : ReplicationManager) (env : Env)
    (targets : list string) (obj : StorageObject) (buffer : list Byte.byte)
  : nat :=
  length (filter (λ nID, replicateToNode rm env nID obj buffer = true) targets).

Definition executeReplication (rm : ReplicationManager) (task obj : nat)
    (data : Reader) (env : Env) : option ReplicationManager :=
  t ← task_heap rm !! task;
  let rm := update_task task (set_Status "in_progress") rm in
  let rm := Store (ObjectID t) task rm in
  match failure data with
  | Some cause =>
      Some (markTaskFailed task ("Failed to buffer data: " +:+ cause)
              (now_CompletedAt env) rm)
  | None =>
      let buffer := content data in
      o ← object_heap rm !! obj;
      let successCount := fan_out rm env (TargetNodes t) o buffer in
      let rm :=
        if decide (0 < successCount)%nat then
          update_task task
            (λ t, set_CompletedAt (Some (now_CompletedAt env))
                    (set_Status "completed" t)) rm
        else
          markTaskFailed task "Failed to replicate to any target node"
            (now_CompletedAt env) rm in
      Some (Store (ObjectID t) task rm)
  end.

Definition GetReplicationStatus (rm : ReplicationManager) (objectID : string)
  : option ReplicationTask :=
  task ← pendingReplications rm !! objectID;
  task_heap rm !! task.

Definition GetAllReplicationTasks (rm : ReplicationManager) (order : list string)
  : list ReplicationTask :=
  omap (λ task, task_heap rm !! task)
       (range_values (pendingReplications rm) order).

End Replication.

(** ** Concrete states *)

Module Examples.
Import Cluster.

(** A process started as node "node-1". *)
Definition started : ClusterManager :=
  NewClusterManager "node-1" "10.0.0.1:8080" 0.

(** The descriptor of a node that is full, posted under the ID of the
    process itself. *)
Definition full_node : Node :=
  mkNode "node-1" "10.0.0.1:8080" "healthy" 0 (S754_zero false) 100 100.

Definition full_table : ClusterManager := RegisterNode started full_node 1.

(** A descriptor with another status, posted under the ID of the process
    itself. *)
Definition unknown_self : Node :=
  mkNode "node-1" "10.0.0.1:8080" "unknown" 0 (S754_zero false) 0 0.

Definition demoted_table : ClusterManager :=
  RegisterNode started unknown_self 1.

Definition peer : Node :=
  mkNode "node-2" "10.0.0.2:8080" "unknown" 0 (S754_zero false) 1000 10.

Definition two_nodes : ClusterManager := RegisterNode started peer 1.
End Examples.

Module ReplicationExamples.
Import Models Replication.

Definition report : StorageObject :=
  mkStorageObject "5d41402abc4b2a76b9719d911017c592" "report.csv" 3
    "text/csv" "900150983cd24fb0d6963f7d28e17f72" 10 10 0 10 ∅ "hot"
    [mkReplicaInfo "node-1" "data/5d41402abc4b2a76b9719d911017c592" "active"].

Definition payload : Reader := mkReader ["a"; "b"; "c"]%byte None.

(** A manager with replication factor 3 on a process that knows no peer. *)
Definition alone : ReplicationManager :=
  mkReplicationManager Examples.started 3 ∅ [] [report] [].

(** The same manager after the entry of the process was replaced. *)
Definition no_target : ReplicationManager :=
  mkReplicationManager Examples.demoted_table 3 ∅ [] [report] [].
End ReplicationExamples.

Module FanOutExample.
Import Models Replication.

Definition peer2 : Cluster.Node :=
  Cluster.mkNode "node-2" "10.0.0.2:8080" "healthy" 0 (S754_zero false)
    1000 10.
Definition peer3 : Cluster.Node :=
  Cluster.mkNode "node-3" "10.0.0.3:8080" "healthy" 0 (S754_zero false)
    1000 10.

Definition three_nodes : Cluster.ClusterManager :=
  Cluster.RegisterNode (Cluster.RegisterNode Examples.started peer2 1) peer3 2.

Definition order3 : list string := ["node-1"; "node-2"; "node-3"].

Definition trio : ReplicationManager :=
  mkReplicationManager three_nodes 3 ∅ [] [ReplicationExamples.report] [].

(** The task record [ReplicateObject] allocates in [trio]. *)
Definition trio_task : ReplicationTask :=
  mkReplicationTask "5d41402abc4b2a76b9719d911017c592" "report.csv" "node-1"
    ["node-1"; "node-2"; "node-3"] "pending" 5 None "".

Definition trio_started : ReplicationManager :=
  mkReplicationManager three_nodes 3
    (<["5d41402abc4b2a76b9719d911017c592" := 0%nat]> ∅) [trio_task]
    [ReplicationExamples.report]
    [mkGoroutine 0 0 ReplicationExamples.payload].

(** Node "node-3" answers 503, the other two answer 200. *)
Definition two_of_three : Env :=
  mkEnv (λ _, order3) (λ _, true)
    (λ req,
       if String.eqb (URL req)
            "http://10.0.0.3:8080/internal/replicate/report.csv"
       then Some 503 else Some 200)
    20.
End FanOutExample.

Module StoreExamples.
Import Models Storage.

(** Stand-ins for the digest and for the encoder of the index, which the
    properties above do not look into. *)
Definition plain_sum (bs : list Byte.byte) : list Byte.byte := bs.
Definition plain_marshal (index : gmap string StorageObject)
  : list Byte.byte := [].
Definition plain_unmarshal (doc : list Byte.byte)
  : gmap string StorageObject := ∅.

Definition fresh : FileStore := NewFileStore plain_unmarshal "data" ∅.

Definition payload : Reader := mkReader ["a"; "b"; "c"]%byte None.

Definition calm : PutEnv :=
  mkPutEnv "2026-01-01 00:00:00 +0000 UTC" 10 10 10 None None None.


Definition after_put : outcome StorageObject error * FileStore * Disk :=
  Put plain_sum plain_marshal fresh ∅ "report.csv" payload "text/csv" calm.

Definition stored : FileStore := after_put.1.2.
Definition stored_disk : Disk := after_put.2.

(** The same upload on a host whose metadata directory cannot be written
    to: the payload file is created, the index document cannot be
    opened. *)
Definition read_only : PutEnv :=
  mkPutEnv "2026-01-01 00:00:00 +0000 UTC" 10 10 10 None None
    (Some OpenRefused).

Definition unsaved_put : outcome StorageObject error * FileStore * Disk :=
  Put plain_sum plain_marshal fresh ∅ "report.csv" payload "text/csv"
    read_only.

Definition unsaved : FileStore := unsaved_put.1.2.
Definition unsaved_disk : Disk := unsaved_put.2.
End StoreExamples.

(** ** internal/cluster/node.go: statistics, and histories of a table *)

Module ClusterStats.

Import Cluster.

(** The values under the keys of the map [GetClusterStats] returns. *)
Record Stats : Type := mkStats {
  total_nodes : Z;
  healthy_nodes : Z;
  total_capacity : Z;
  total_used : Z;
  stats_utilization : spec_float;
  stats_nodes : gmap string Node
}.

(** One iteration of the counting loop on
    [(healthyNodes, totalCapacity, totalUsed)]. *)
Definition count_step (acc : Z * Z * Z) (node : Node) : Z * Z * Z :=
  let '(healthyNodes, totalCapacity, totalUsed) := acc in
  (if decide (Status node = "healthy") then Int64.incr healthyNodes
   else healthyNodes,
   Int64.int64_wrap (totalCapacity + Capacity node),
   Int64.int64_wrap (totalUsed + Used node)).

Definition GetClusterStats (cm : ClusterManager) (order : list string) : Stats :=
  let '(healthyNodes, totalCapacity, totalUsed) :=
    foldl count_step (0, 0, 0) (range_values (nodes cm) order) in
  mkStats (Z.of_nat (size (nodes cm))) healthyNodes totalCapacity totalUsed
    (Float64.div (Float64.of_int totalUsed) (Float64.of_int totalCapacity))
    (nodes cm).

(** What the body of the sweep leaves under the key [nodeID] that held
    [node]. *)
Definition swept (self : string) (now : Time) (pingNode : Node → bool)
    (nodeID : string) (node : Node) : Node :=
  if decide (nodeID = self) then node
  else if decide (Duration.Sub now (LastSeen node) > stale_after) then
    set_Status "unhealthy" node
  else if pingNode node then set_LastSeen now (set_Status "healthy" node)
  else set_Status "unhealthy" node.

(** The fields a sweep never writes. *)
Definition same_identity (node node' : Node) : Prop :=
  ID node' = ID node ∧ Address node' = Address node ∧ Load node' = Load node ∧
  Capacity node' = Capacity node ∧ Used node' = Used node.

(** The constructor's entry for the process. *)
Definition self_node (nodeID nodeAddress : string) (now : Time) : Node :=
  mkNode nodeID nodeAddress "healthy" now (S754_zero false) default_capacity 0.

(** Every entry is stored under its own ID. *)
Definition keyed_by_ID (cm : ClusterManager) : Prop :=
  ∀ k node, nodes cm !! k = Some node → ID node = k.

(** What happens to a table after its construction: registrations, which
    arrive through [HandleNodeRegistration], and the sweeps of the ticker. *)
Inductive Event : Type :=
  | Register (node : Node) (now : Time)
  | Sweep (now : Time) (pingNode : Node → bool) (order : list string).

Definition handle (cm : ClusterManager) (e : Event) : ClusterManager :=
  match e with
  | Register node now => RegisterNode cm node now
  | Sweep now pingNode order => performHealthCheck cm now pingNode order
  end.

Definition run (cm : ClusterManager) (events : list Event) : ClusterManager :=
  foldl handle cm events.

(** The registration carries the ID of another node than [self]. *)
Definition foreign (self : string) (e : Event) : Prop :=
  match e with
  | Register node _ => ID node ≠ self
  | Sweep _ _ _ => True
  end.

(** The event is a sweep, at [start] or later. *)
Definition sweep_from (start : Time) (e : Event) : Prop :=
  match e with
  | Register _ _ => False
  | Sweep now _ _ => start ≤ now
  end.

End ClusterStats.

(** ** internal/storage/filestore.go: histories of a store *)

Module StoreHistory.

Import Models Storage.

Section History.

Variable md5_Sum : list Byte.byte → list Byte.byte.
Variable json_Marshal : gmap string StorageObject → list Byte.byte.

(** The calls a store receives. *)
Inductive Op : Type :=
  | OpPut (key : string) (data : Reader) (contentType : string) (env : PutEnv)
  | OpGet (key : string) (now : Time) (fault : option WriteFault)
  | OpDelete (key : string) (fault : option WriteFault).

(** The store and the disk after a call, whatever the call returned. *)
Definition step (s : FileStore * Disk) (op : Op) : FileStore * Disk :=
  match op with
  | OpPut key data contentType env =>
      let '(_, fs, disk) :=
        Put md5_Sum json_Marshal s.1 s.2 key data contentType env in
      (fs, disk)
  | OpGet key now fault =>
      let '(_, fs, disk) := Get json_Marshal s.1 s.2 key now fault in
      (fs, disk)
  | OpDelete key fault =>
      let '(_, fs, disk) := Delete json_Marshal s.1 s.2 key fault in
      (fs, disk)
  end.

Definition run_ops (s : FileStore * Disk) (ops : list Op) : FileStore * Disk :=
  foldl step s ops.

(** The call changes the index: a [Put] that returns a descriptor, a [Get]
    or a [Delete] of a key that is present. *)
Definition mutates (s : FileStore * Disk) (op : Op) : Prop :=
  match op with
  | OpPut key data contentType env =>
      ∃ obj fs disk,
        Put md5_Sum json_Marshal s.1 s.2 key data contentType env
        = (Returned obj, fs, disk)
  | OpGet key _ _ | OpDelete key _ => is_Some (objects s.1 !! key)
  end.

(** The fault of the host when the call writes the index document. *)
Definition index_fault (op : Op) : option WriteFault :=
  match op with
  | OpPut _ _ _ env => save_fault env
  | OpGet _ _ fault | OpDelete _ fault => fault
  end.

(** The key a call is about. *)
Definition key_of (op : Op) : string :=
  match op with
  | OpPut key _ _ _ | OpGet key _ _ | OpDelete key _ => key
  end.

Definition is_get (op : Op) : Prop :=
  match op with
  | OpGet _ _ _ => True
  | _ => False
  end.

Global Instance is_get_dec op : Decision (is_get op).
Proof. destruct op; simpl; apply _. Defined.

(** The calls of [ops] that are a [Get] of [key]. *)
Definition gets_of (key : string) (ops : list Op) : list Op :=
  filter (λ op, is_get op ∧ key_of op = key) ops.

(** The index document on disk is the encoding of the index in memory. *)
Definition persisted (fs : FileStore) (disk : Disk) : Prop :=
  disk !! metadata_file fs = Some (json_Marshal (objects fs)).

(** The shape [Put] gives to the entry under [key]. *)
Definition put_shaped (fs : FileStore) (key : string) (obj : StorageObject)
  : Prop :=
  Key obj = key ∧
  StorageTier obj = "hot" ∧
  Metadata obj = ∅ ∧
  Replicas obj
  = [mkReplicaInfo "node-1" (Filepath.Join (basePath fs) (ID obj)) "active"].

Definition all_put_shaped (fs : FileStore) : Prop :=
  ∀ key obj, objects fs !! key = Some obj → put_shaped fs key obj.

End History.

End StoreHistory.

Module StoreHistoryExamples.

Import Models Storage StoreHistory StoreExamples.




(** A codec of the index that decodes what it encodes, with S-expressions
    in place of JSON: an entry is written as its key and its fields. *)
Definition fields : Type :=
  string * string * Z * string * string * Z * Z * Z * Z
  * list (string * string) * string * list (string * string * string).

Definition fields_of (obj : StorageObject) : fields :=
  (ID obj, Key obj, Size obj, ContentType obj, Checksum obj, CreatedAt obj,
   UpdatedAt obj, AccessCount obj, LastAccess obj,
   map_to_list (Metadata obj), StorageTier obj,
   (λ replica, (NodeID replica, FilePath replica, Status replica))
     <$> Replicas obj).

Definition object_of (f : fields) : StorageObject :=
  let '(id, key, size, contentType, checksum, created, updated, count,
        last, metadata, tier, replicas) := f in
  mkStorageObject id key size contentType checksum created updated count
    last (list_to_map metadata) tier
    ((λ '(node, path, status), mkReplicaInfo node path status)
       <$> replicas).

Definition sexp_marshal (index : gmap string StorageObject)
  : list Byte.byte :=
  list_byte_of_string
    (Ceres.CeresSerialize.to_string
       ((λ entry, (entry.1, fields_of entry.2)) <$> map_to_list index)).

Definition sexp_unmarshal (doc : list Byte.byte)
  : gmap string StorageObject :=
  match
    Ceres.CeresDeserialize.from_string (A := list (string * fields))
      (string_of_list_byte doc)
  with
  | inr entries =>
      list_to_map ((λ entry, (entry.1, object_of entry.2)) <$> entries)
  | inl _ => ∅
  end.

(** Two reads of "report.csv" around a read of a key that is absent. *)
Definition three_reads : list Op :=
  [OpGet "report.csv" 20 None; OpGet "notes.txt" 21 None;
   OpGet "report.csv" 22 None].

End StoreHistoryExamples.

(** ** internal/replication/manager.go: what a run leaves of a task record *)

Module ReplicationFrames.

Import Replication.

(** The fields of a task record that are set when the task is created. *)
Definition same_task (t t' : ReplicationTask) : Prop :=
  ObjectID t' = ObjectID t ∧ ObjectKey t' = ObjectKey t ∧
  SourceNode t' = SourceNode t ∧ TargetNodes t' = TargetNodes t ∧
  CreatedAt t' = CreatedAt t.

(** The request of the transfer of [obj] to the node at [address]. *)
Definition push_request (source address : string) (obj : Models.StorageObject)
    (body : list Byte.byte) : Request :=
  mkRequest "PUT"
    ("http://" +:+ address +:+ "/internal/replicate/" +:+ Models.Key obj)
    [("Content-Type", Models.ContentType obj);
     ("X-Object-ID", Models.ID obj);
     ("X-Checksum", Models.Checksum obj);
     ("X-Replication-Source", source)]
    body.

End ReplicationFrames.

(** ** internal/api/handlers.go *)

Module Api.

Import Models Storage.

(** [models.AccessPattern]. *)
Record AccessPattern : Type := mkAccessPattern {
  pattern_ObjectID : string;
  AccessTime : Time;
  Operation : string;      (* read, write, delete *)
  UserID : string;
  pattern_Size : Z
}.

(** The store and the tracker of the server. *)
Record APIServer : Type := mkAPIServer {
  store : FileStore;
  patterns : list AccessPattern
}.

(** A request as the handlers read it: the route variable, the lookup of a
    header ([r.Header.Get], empty for a header that is absent) and the
    body. *)
Record HttpRequest : Type := mkHttpRequest {
  vars_key : string;
  Header_Get : string → string;
  Body : Reader
}.

(** What a handler wrote to its [http.ResponseWriter]. *)
Record Response : Type := mkResponse {
  StatusCode : Z;
  Header : gmap string string;
  Written : list Byte.byte
}.

Definition StatusOK : Z := 200.
Definition StatusNoContent : Z := 204.
Definition StatusNotFound : Z := 404.
Definition StatusInternalServerError : Z := 500.

(** [err.Error()] for the errors of the store; a file that cannot be opened
    is a file that does not exist, and the text of that error is the one of
    a Unix host. *)
Definition Error_string (e : error) : string :=
  match e with
  | ErrCreateFile cause => "failed to create file: " +:+ cause
  | ErrWriteData cause => "failed to write data: " +:+ cause
  | ErrNotFound key => "object not found: " +:+ key
  | ErrOpenFile path =>
      "failed to open file: open " +:+ path +:+ ": no such file or directory"
  end.

(** [http.Error(w, msg, code)]. *)
Definition http_Error (msg : string) (code : Z) : Response :=
  mkResponse code
    (<["Content-Type" := "text/plain; charset=utf-8"]>
       (<["X-Content-Type-Options" := "nosniff"]> ∅))
    (list_byte_of_string (msg +:+ String "010" EmptyString)).

(** [strconv.FormatInt(n, 10)]. *)
Definition FormatInt (n : Z) : string :=
  DecimalString.NilZero.string_of_int (Z.to_int n).

Definition trackAccess (api : APIServer) (objectID operation userID : string)
    (size : Z) (now : Time) : APIServer :=
  mkAPIServer (store api)
    (patterns api ++ [mkAccessPattern objectID now operation userID size]).

Definition set_store (fs : FileStore) (api : APIServer) : APIServer :=
  mkAPIServer fs (patterns api).

(** The content type [putObject] stores for a request. *)
Definition stored_type (r : HttpRequest) : string :=
  if decide (Header_Get r "Content-Type" = "")
  then "application/octet-stream" else Header_Get r "Content-Type".

(** [calculateTotalSize]: the loop adds the sizes in the order it visits
    the snapshot. *)
Definition calculateTotalSize (objects : gmap string StorageObject)
    (order : list string) : Z :=
  foldl (λ total obj, Int64.int64_wrap (total + Size obj)) 0
    (range_values objects order).

(** [calculateTierDistribution]: [distribution[obj.StorageTier]++], where a
    tier that is not yet in the map counts from zero. *)
Definition calculateTierDistribution (objects : gmap string StorageObject)
    (order : list string) : gmap string Z :=
  foldl (λ distribution obj,
           <[StorageTier obj :=
               Int64.incr (default 0 (distribution !! StorageTier obj))]>
             distribution)
    ∅ (range_values objects order).

(** The values under the keys of the map [getStats] encodes. *)
Record StoreStats : Type := mkStoreStats {
  total_objects : Z;
  total_size : Z;
  tier_distribution : gmap string Z;
  access_patterns : list AccessPattern
}.

Section Handlers.

Variable md5_Sum : list Byte.byte → list Byte.byte.
Variable json_Marshal : gmap string StorageObject → list Byte.byte.
(** What [json.NewEncoder(w).Encode] writes for a descriptor, for a
    snapshot of the index and for the statistics. *)
Variable json_Encode_object : StorageObject → list Byte.byte.
Variable json_Encode_index : gmap string StorageObject → list Byte.byte.
Variable json_Encode_stats : StoreStats → list Byte.byte.

Definition json_header : gmap string string :=
  <["Content-Type" := "application/json"]> ∅.

(** A handler returns the response, or [None] when it panicked, with the
    server and the disk it leaves.  [env] holds the clock and the faults of
    the host during [Put], [now_get] and [fault] are the clock and the fault
    of the host during [Get] or [Delete], [now] is the clock of
    [trackAccess]. *)
Definition putObject (api : APIServer) (disk : Disk) (r : HttpRequest)
    (env : PutEnv) (now : Time) : option Response * APIServer * Disk :=
  let key := vars_key r in
  let contentType :=
    if decide (Header_Get r "Content-Type" = "")
    then "application/octet-stream" else Header_Get r "Content-Type" in
  match Put md5_Sum json_Marshal (store api) disk key (Body r) contentType env with
  | (Failed e, fs, disk) =>
      (Some (http_Error (Error_string e) StatusInternalServerError),
       set_store fs api, disk)
  | (Panicked, fs, disk) => (None, set_store fs api, disk)
  | (Returned obj, fs, disk) =>
      let api := set_store fs api in
      let api :=
        trackAccess api (ID obj) "write" (Header_Get r "User-ID") (Size obj)
          now in
      (Some (mkResponse StatusOK json_header (json_Encode_object obj)),
       api, disk)
  end.

Definition getObject (api : APIServer) (disk : Disk) (r : HttpRequest)
    (now_get : Time) (fault : option WriteFault) (now : Time)
  : option Response * APIServer * Disk :=
  let key := vars_key r in
  match Get json_Marshal (store api) disk key now_get fault with
  | (Failed e, fs, disk) =>
      (Some (http_Error (Error_string e) StatusNotFound),
       set_store fs api, disk)
  | (Panicked, fs, disk) => (None, set_store fs api, disk)
  | (Returned (bytes, obj), fs, disk) =>
      let api := set_store fs api in
      let api :=
        trackAccess api (ID obj) "read" (Header_Get r "User-ID") (Size obj)
          now in
      let header :=
        <["ETag" := Checksum obj]>
          (<["Content-Length" := FormatInt (Size obj)]>
             (<["Content-Type" := ContentType obj]> ∅)) in
      (Some (mkResponse StatusOK header bytes), api, disk)
  end.

Definition deleteObject (api : APIServer) (disk : Disk) (r : HttpRequest)
    (fault : option WriteFault) : option Response * APIServer * Disk :=
  let key := vars_key r in
  match Delete json_Marshal (store api) disk key fault with
  | (Some e, fs, disk) =>
      (Some (http_Error (Error_string e) StatusNotFound),
       set_store fs api, disk)
  | (None, fs, disk) =>
      (Some (mkResponse StatusNoContent ∅ []), set_store fs api, disk)
  end.

Definition listObjects (api : APIServer) : Response :=
  mkResponse StatusOK json_header (json_Encode_index (List (store api))).

Definition getStats (api : APIServer) (order_size order_tier : list string)
  : Response :=
  let objects := List (store api) in
  let stats :=
    mkStoreStats (Z.of_nat (size objects))
      (calculateTotalSize objects order_size)
      (calculateTierDistribution objects order_tier)
      (patterns api) in
  mkResponse StatusOK json_header (json_Encode_stats stats).

(** The requests of the object routes. *)
Inductive Call : Type :=
  | CallPut (r : HttpRequest) (env : PutEnv) (now : Time)
  | CallGet (r : HttpRequest) (now_get : Time) (fault : option WriteFault)
      (now : Time)
  | CallDelete (r : HttpRequest) (fault : option WriteFault).

Definition serve (api : APIServer) (disk : Disk) (c : Call)
  : option Response * APIServer * Disk :=
  match c with
  | CallPut r env now => putObject api disk r env now
  | CallGet r now_get fault now => getObject api disk r now_get fault now
  | CallDelete r fault => deleteObject api disk r fault
  end.

(** The pattern a handler appends for the call, if the call is answered
    with [response]. *)
Definition tracked (c : Call) (response : option Response) : bool :=
  match c, response with
  | (CallPut _ _ _ | CallGet _ _ _ _), Some resp =>
      bool_decide (StatusCode resp = StatusOK)
  | _, _ => false
  end.

End Handlers.

End Api.

Module ApiExamples.

Import Models Storage Api StoreExamples.

(** Stand-ins for the encoders of the responses. *)
Definition plain_marshal_object (obj : StorageObject) : list Byte.byte := [].
Definition plain_marshal_stats (stats : StoreStats) : list Byte.byte := [].

(** A request for "report.csv" that names neither a content type nor a
    user. *)
Definition upload : HttpRequest :=
  mkHttpRequest "report.csv" (λ _, "") payload.

Definition fresh_server : APIServer := mkAPIServer fresh [].

End ApiExamples.

(** * Properties *)

(** ** Range loops *)

Section RangeFacts.
Context {V : Type}.
Implicit Types (m : gmap string V) (order : list string).

Lemma elem_of_range_values m order v :
  v ∈ range_values m order ↔ ∃ k, k ∈ order ∧ m !! k = Some v.
Proof. unfold range_values. by rewrite list_elem_of_omap. Qed.

Lemma range_values_complete m order k v :
  range_order m order → m !! k = Some v → v ∈ range_values m order.
Proof.
  intros [_ Hall] Hk. apply elem_of_range_values. exists k. split; [|done].
  apply Hall. by exists v.
Qed.

Lemma range_order_elements m :
  range_order m (elements (dom m)).
Proof.
  split; [apply NoDup_elements|].
  intros k. by rewrite elem_of_elements, elem_of_dom.
Qed.
End RangeFacts.

(** ** Membership: healthy nodes and replication targets *)

Section ClusterFacts.
Import Cluster.
Implicit Types (cm : ClusterManager) (node : Node) (order : list string).

Lemma elem_of_GetHealthyNodes cm order node :
  node ∈ GetHealthyNodes cm order ↔
  Status node = "healthy" ∧ ∃ k, k ∈ order ∧ nodes cm !! k = Some node.
Proof.
  unfold GetHealthyNodes.
  by rewrite list_elem_of_filter, elem_of_range_values.
Qed.


Lemma GetHealthyNodes_nil cm order :
  (∀ k node, nodes cm !! k = Some node → Status node ≠ "healthy") →
  GetHealthyNodes cm order = [].
Proof.
  intros Hnone.
  destruct (GetHealthyNodes cm order) as [|node l] eqn:E; [done|].
  assert (node ∈ GetHealthyNodes cm order) as Hin by (rewrite E; left).
  apply elem_of_GetHealthyNodes in Hin as [Hh (k & _ & Hk)].
  by destruct (Hnone k node).
Qed.

(** The copying loop started at index [i] appends the next [count - i]
    nodes, as far as they exist. *)
Lemma copy_loop_take (l selected : list Node) (count : Z) :
  ∀ (fuel i : nat),
    (length l ≤ i + fuel)%nat →
    copy_loop fuel (Z.of_nat i) count l selected
    = selected ++ take (Z.to_nat count - i) (drop i l).
Proof.
  intros fuel. revert selected.
  induction fuel as [|fuel IH]; intros selected i Hfuel; simpl.
  - rewrite drop_ge by lia. by rewrite take_nil, app_nil_r.
  - case_bool_decide as Hc.
    + destruct Hc as [Hcount Hlen]. rewrite Nat2Z.id.
      destruct (lookup_lt_is_Some_2 l i) as [node Hnode]; [lia|].
      rewrite Hnode.
      replace (Z.of_nat i + 1) with (Z.of_nat (S i)) by lia.
      rewrite IH by lia.
      rewrite (drop_S l node i Hnode).
      replace (Z.to_nat count - i)%nat with (S (Z.to_nat count - S i)) by lia.
      simpl. by rewrite <- app_assoc.
    + apply not_and_l in Hc as [Hcount | Hlen].
      * replace (Z.to_nat count - i)%nat with 0%nat by lia.
        by rewrite app_nil_r.
      * rewrite drop_ge by lia. by rewrite take_nil, app_nil_r.
Qed.

Lemma SelectNodesForReplication_take cm (count : Z) order :
  (0 ≤ count)%Z →
  SelectNodesForReplication cm count order
  = Some (take (Z.to_nat count) (GetHealthyNodes cm order)).
Proof.
  intros Hcount. unfold SelectNodesForReplication.
  case_decide as Hle.
  - by rewrite take_ge by lia.
  - case_decide; [lia|].
    rewrite (copy_loop_take _ _ _ _ 0%nat) by lia.
    simpl. by rewrite Nat.sub_0_r.
Qed.

Lemma SelectNodesForReplication_negative cm (count : Z) order :
  (count < 0)%Z → SelectNodesForReplication cm count order = None.
Proof.
  intros Hcount. unfold SelectNodesForReplication.
  case_decide; [lia|]. by case_decide.
Qed.


End ClusterFacts.

(** ** Comparison of floating-point numbers *)

Module FloatFacts.

Ltac sf_cases :=
  repeat match goal with
  | s : bool |- _ => destruct s
  | x : spec_float |- _ => destruct x
  end; simpl; try done.

Ltac cmp_cases :=
  repeat match goal with
  | |- context [Z.compare ?x ?y] =>
      destruct (Z.compare_spec x y); simpl; try done
  | H : context [Z.compare ?x ?y] |- _ =>
      destruct (Z.compare_spec x y); simpl in H; try done
  | |- context [Pos.compare_cont Eq ?x ?y] =>
      change (Pos.compare_cont Eq x y) with (Pos.compare x y);
      destruct (Pos.compare_spec x y); simpl; try done
  | H : context [Pos.compare_cont Eq ?x ?y] |- _ =>
      change (Pos.compare_cont Eq x y) with (Pos.compare x y) in H;
      destruct (Pos.compare_spec x y); simpl in H; try done
  end; try lia.

(** If [a] is not below [b] and [c] is, then [a] is neither below nor
    equal to [c]: it is above it, or a NaN. *)
Lemma ltb_false_true_leb a b c :
  Float64.ltb a b = false → Float64.ltb c b = true → Float64.leb a c = false.
Proof.
  unfold Float64.ltb, Float64.leb, SFltb, SFleb, SFcompare.
  sf_cases; intros; cmp_cases.
Qed.

Lemma ltb_trans a b c :
  Float64.ltb a b = true → Float64.ltb b c = true → Float64.ltb a c = true.
Proof.
  unfold Float64.ltb, SFltb, SFcompare. sf_cases; intros; cmp_cases.
Qed.

Lemma leb_false_ltb a b : Float64.leb a b = false → Float64.ltb a b = false.
Proof.
  unfold Float64.ltb, Float64.leb, SFltb, SFleb.
  by destruct (SFcompare a b) as [[]|].
Qed.

Lemma ltb_irrefl a : Float64.ltb a a = false.
Proof.
  unfold Float64.ltb, SFltb, SFcompare. sf_cases; cmp_cases.
Qed.

End FloatFacts.

(** ** Membership: the node chosen for a write *)

Section SelectNodeForWrite.
Import Cluster.
Implicit Types (cm : ClusterManager) (node best : Node) (order : list string).


Lemma lowest_so_far_not_below visited acc node :
  lowest_so_far visited acc → node ∈ visited →
  Float64.ltb (utilization node) acc.2 = false.
Proof.
  unfold lowest_so_far. destruct acc as [[best|] lowest]; simpl.
  - intros (-> & _ & before & after & -> & Hbefore & Hafter) Hin.
    apply elem_of_app in Hin as [Hin | Hin].
    + by apply FloatFacts.leb_false_ltb, Hbefore.
    + apply elem_of_cons in Hin as [-> | Hin].
      * apply FloatFacts.ltb_irrefl.
      * by apply Hafter.
  - intros [-> Hall] Hin. by apply Hall.
Qed.

Lemma lowest_step_preserves visited acc node :
  lowest_so_far visited acc →
  lowest_so_far (visited ++ [node]) (lowest_step acc node).
Proof.
  intros Hinv. unfold lowest_step.
  destruct (Float64.ltb (utilization node) acc.2) eqn:Hlt.
  - unfold lowest_so_far; simpl. split; [done|]. split.
    + revert Hinv Hlt. unfold lowest_so_far.
      destruct acc as [[best|] lowest]; simpl.
      * intros (-> & Hbest & _) Hlt. by eapply FloatFacts.ltb_trans.
      * by intros [-> _] Hlt.
    + exists visited, []. split; [done|]. split.
      * intros other Hin.
        eapply FloatFacts.ltb_false_true_leb; [|exact Hlt].
        by eapply lowest_so_far_not_below.
      * intros other Hin. by apply elem_of_nil in Hin.
  - revert Hinv Hlt. unfold lowest_so_far.
    destruct acc as [[best|] lowest]; simpl.
    + intros (-> & Hbest & before & after & -> & Hbefore & Hafter) Hlt.
      split; [done|]. split; [done|].
      exists before, (after ++ [node]). split; [by rewrite <- app_assoc|].
      split; [done|].
      intros other Hin. apply elem_of_app in Hin as [Hin | Hin].
      * by apply Hafter.
      * apply list_elem_of_singleton in Hin as ->. done.
    + intros [-> Hall] Hlt. split; [done|].
      intros other Hin. apply elem_of_app in Hin as [Hin | Hin].
      * by apply Hall.
      * apply list_elem_of_singleton in Hin as ->. done.
Qed.

Lemma lowest_fold l :
  ∀ visited acc,
    lowest_so_far visited acc →
    lowest_so_far (visited ++ l) (foldl lowest_step acc l).
Proof.
  induction l as [|node l IH]; intros visited acc Hinv; simpl.
  - by rewrite app_nil_r.
  - replace (visited ++ node :: l) with ((visited ++ [node]) ++ l)
      by (by rewrite <- app_assoc).
    apply IH. by apply lowest_step_preserves.
Qed.

Lemma lowest_of_all l :
  lowest_so_far l (foldl lowest_step (None, Float64.one) l).
Proof.
  apply (lowest_fold l [] (None, Float64.one)).
  split; [done|]. intros node Hin. by apply elem_of_nil in Hin.
Qed.

End SelectNodeForWrite.

Section SelectNodeForWriteSpec.
Import Cluster.
Implicit Types (cm : ClusterManager) (node best : Node) (order : list string).

Lemma SelectNodeForWrite_fold cm order :
  SelectNodeForWrite cm order
  = (foldl lowest_step (None, Float64.one) (GetHealthyNodes cm order)).1.
Proof.
  unfold SelectNodeForWrite.
  destruct (GetHealthyNodes cm order) as [|node l]; [done|].
  by case_decide.
Qed.

Lemma SelectNodeForWrite_Some cm order best :
  SelectNodeForWrite cm order = Some best →
  Float64.ltb (utilization best) Float64.one = true ∧
  ∃ before after,
    GetHealthyNodes cm order = before ++ best :: after ∧
    (∀ node, node ∈ before →
       Float64.leb (utilization node) (utilization best) = false) ∧
    (∀ node, node ∈ after →
       Float64.ltb (utilization node) (utilization best) = false).
Proof.
  rewrite SelectNodeForWrite_fold. intros Hbest.
  pose proof (lowest_of_all (GetHealthyNodes cm order)) as Hinv.
  unfold lowest_so_far in Hinv. rewrite Hbest in Hinv.
  by destruct Hinv as (_ & Hone & Hrest).
Qed.

Lemma SelectNodeForWrite_None cm order :
  SelectNodeForWrite cm order = None ↔
  ∀ node, node ∈ GetHealthyNodes cm order →
    Float64.ltb (utilization node) Float64.one = false.
Proof.
  rewrite SelectNodeForWrite_fold.
  pose proof (lowest_of_all (GetHealthyNodes cm order)) as Hinv.
  unfold lowest_so_far in Hinv.
  destruct (foldl lowest_step (None, Float64.one) (GetHealthyNodes cm order)).1
    as [best|] eqn:Hbest.
  - split; [done|]. intros Hall.
    destruct Hinv as (_ & Hone & before & after & Hl & _).
    rewrite Hall in Hone; [done|]. rewrite Hl. set_solver.
  - split; [|done]. intros _. by destruct Hinv.
Qed.

(** C2, as amended. For a loop order that visits every key of the table:
    [SelectNodeForWrite] returns a node exactly when some healthy node has
    a utilization [float64(Used)/float64(Capacity)] below 1.0.  The node
    returned is a healthy node of the table, its utilization is below 1.0,
    no healthy node has a lower one, and the healthy nodes visited before
    it have neither a lower nor an equal one.  With no healthy node in the
    table the result is none. *)
Theorem SelectNodeForWrite_spec cm order :
  range_order (nodes cm) order →
  (is_Some (SelectNodeForWrite cm order) ↔
     ∃ k node, nodes cm !! k = Some node ∧ Status node = "healthy" ∧
               Float64.ltb (utilization node) Float64.one = true) ∧
  (∀ best, SelectNodeForWrite cm order = Some best →
     Status best = "healthy" ∧
     (∃ k, nodes cm !! k = Some best) ∧
     Float64.ltb (utilization best) Float64.one = true ∧
     (∀ k node, nodes cm !! k = Some node → Status node = "healthy" →
        Float64.ltb (utilization node) (utilization best) = false) ∧
     ∃ before after,
       GetHealthyNodes cm order = before ++ best :: after ∧
       ∀ node, node ∈ before →
         Float64.leb (utilization node) (utilization best) = false) ∧
  ((∀ k node, nodes cm !! k = Some node → Status node ≠ "healthy") →
     SelectNodeForWrite cm order = None).
Proof.
  intros Horder.
  assert (∀ k node, nodes cm !! k = Some node → Status node = "healthy" →
                    node ∈ GetHealthyNodes cm order) as Hvisited.
  { intros k node Hk Hh. apply elem_of_GetHealthyNodes. split; [done|].
    exists k. split; [|done]. apply Horder. by exists node. }
  split; [|split].
  - split.
    + intros [best Hbest].
      destruct (SelectNodeForWrite_Some _ _ _ Hbest)
        as (Hone & before & after & Hl & _).
      assert (best ∈ GetHealthyNodes cm order) as Hin
        by (rewrite Hl; set_solver).
      apply elem_of_GetHealthyNodes in Hin as (Hh & k & _ & Hk).
      by exists k, best.
    + intros (k & node & Hk & Hh & Hone).
      destruct (SelectNodeForWrite cm order) as [best|] eqn:Hsel; [by eexists|].
      rewrite SelectNodeForWrite_None in Hsel.
      rewrite (Hsel node) in Hone; [done|]. by eapply Hvisited.
  - intros best Hbest.
    destruct (SelectNodeForWrite_Some _ _ _ Hbest)
      as (Hone & before & after & Hl & Hbefore & Hafter).
    assert (best ∈ GetHealthyNodes cm order) as Hin
      by (rewrite Hl; set_solver).
    apply elem_of_GetHealthyNodes in Hin as (Hh & k & _ & Hk).
    split; [done|]. split; [by exists k|]. split; [done|]. split.
    + intros k' node Hk' Hh'.
      pose proof (Hvisited _ _ Hk' Hh') as Hin. rewrite Hl in Hin.
      apply elem_of_app in Hin as [Hin | Hin].
      * by apply FloatFacts.leb_false_ltb, Hbefore.
      * apply elem_of_cons in Hin as [-> | Hin].
        -- apply FloatFacts.ltb_irrefl.
        -- by apply Hafter.
    + by exists before, after.
  - intros Hnone. apply SelectNodeForWrite_None.
    rewrite (GetHealthyNodes_nil _ _ Hnone). set_solver.
Qed.

End SelectNodeForWriteSpec.


Section TableFacts.
Import Cluster.

Lemma range_order_singleton {V} (k : string) (v : V) :
  range_order (<[k := v]> ∅) [k].
Proof.
  split; [apply NoDup_singleton|].
  intros k'. rewrite list_elem_of_singleton, lookup_insert_is_Some.
  rewrite lookup_empty. split; [by left|].
  intros [Heq | [_ Hnone]]; [done|]. by destruct Hnone.
Qed.

Lemma started_order : range_order (nodes Examples.started) ["node-1"].
Proof. apply range_order_singleton. Qed.

Lemma full_table_order : range_order (nodes Examples.full_table) ["node-1"].
Proof.
  unfold Examples.full_table, Examples.started, RegisterNode,
    NewClusterManager; simpl.
  rewrite insert_insert_eq. apply range_order_singleton.
Qed.

End TableFacts.

Section ClusterRuns.
Import Cluster.


(** C2, at the table of a process that has just started. *)
Lemma SelectNodeForWrite_spec_witness :
  range_order (nodes Examples.started) ["node-1"] ∧
  (is_Some (SelectNodeForWrite Examples.started ["node-1"]) ↔
     ∃ k node, nodes Examples.started !! k = Some node ∧
               Status node = "healthy" ∧
               Float64.ltb (utilization node) Float64.one = true).
Proof.
  split; [apply started_order|].
  apply (SelectNodeForWrite_spec Examples.started ["node-1"]).
  apply started_order.
Defined.

(** C2 as the specification words it does not hold: in [full_table] the
    only node is healthy and full, its utilization is 1.0, which is not
    below the initial [lowestLoad], and no node is returned. *)
Lemma SelectNodeForWrite_full_table :
  ¬ (∀ cm order,
       range_order (nodes cm) order →
       (is_Some (SelectNodeForWrite cm order) ↔
          ∃ k node, nodes cm !! k = Some node ∧ Status node = "healthy")).
Proof.
  intros Hclaim.
  destruct (Hclaim Examples.full_table ["node-1"] full_table_order)
    as [_ Hsome].
  destruct Hsome as [best Hbest].
  - exists "node-1". eexists. split; [reflexivity|]. reflexivity.
  - vm_compute in Hbest. discriminate.
Qed.

End ClusterRuns.

(** ** Membership: the entry of the process itself *)

Section SelfEntry.
Import Cluster.
Implicit Types (cm : ClusterManager) (table : gmap string Node).


Lemma check_node_self self now pingNode table k :
  check_node self now pingNode table k !! self = table !! self.
Proof.
  unfold check_node. destruct (table !! k) as [node|] eqn:Hk; [|done].
  case_decide as Hself; [done|].
  repeat case_match; by rewrite lookup_insert_ne.
Qed.

Lemma sweep_self self now pingNode order :
  ∀ table,
    foldl (check_node self now pingNode) table order !! self = table !! self.
Proof.
  induction order as [|k order IH]; intros table; simpl; [done|].
  by rewrite IH, check_node_self.
Qed.

Lemma NewClusterManager_self_healthy nodeID nodeAddress now :
  self_healthy (NewClusterManager nodeID nodeAddress now).
Proof. eexists. simpl. by rewrite lookup_insert_eq. Qed.

Lemma performHealthCheck_self_healthy cm now pingNode order :
  self_healthy cm → self_healthy (performHealthCheck cm now pingNode order).
Proof.
  intros (self & Hself & Hh). exists self. simpl. by rewrite sweep_self.
Qed.

Lemma RegisterNode_self_healthy cm node now :
  ID node ≠ ID (currentNode cm) →
  self_healthy cm → self_healthy (RegisterNode cm node now).
Proof.
  intros Hne (self & Hself & Hh). exists self. simpl.
  by rewrite lookup_insert_ne.
Qed.

Lemma self_healthy_GetHealthyNodes cm order :
  range_order (nodes cm) order → self_healthy cm →
  GetHealthyNodes cm order ≠ [].
Proof.
  intros Horder (self & Hself & Hh) Hnil.
  assert (self ∈ GetHealthyNodes cm order) as Hin.
  { apply elem_of_GetHealthyNodes. split; [done|].
    exists (ID (currentNode cm)). split; [|done].
    apply Horder. by exists self. }
  rewrite Hnil in Hin. by apply elem_of_nil in Hin.
Qed.

Lemma check_node_absent self now pingNode table k :
  (∀ k', k' ≠ self → table !! k' = None) →
  check_node self now pingNode table k = table.
Proof.
  intros Honly. unfold check_node.
  destruct (table !! k) as [node|] eqn:Hk; [|done].
  case_decide as Hself; [done|]. by rewrite Honly in Hk.
Qed.

Lemma sweep_only_self self now pingNode table order :
  (∀ k', k' ≠ self → table !! k' = None) →
  foldl (check_node self now pingNode) table order = table.
Proof.
  intros Honly. induction order as [|k order IH]; simpl; [done|].
  by rewrite check_node_absent.
Qed.

Lemma demoted_table_nodes :
  nodes Examples.demoted_table
  = <["node-1" := set_LastSeen 1 Examples.unknown_self]> ∅.
Proof.
  unfold Examples.demoted_table, Examples.started, RegisterNode,
    NewClusterManager; simpl.
  by rewrite insert_insert_eq.
Qed.

Lemma demoted_table_unhealthy k node :
  nodes Examples.demoted_table !! k = Some node → Status node ≠ "healthy".
Proof.
  rewrite demoted_table_nodes.
  rewrite lookup_insert. case_decide; [|by rewrite lookup_empty].
  by intros [= <-].
Qed.

(** C10 does not hold of the code.  A registration that carries the ID of
    the process itself replaces the entry the constructor stored: from then
    on the table has no healthy node, [GetHealthyNodes] returns the empty
    list, [SelectNodesForReplication 1] returns no node, and the health
    sweep, which skips that key, never changes the entry again. *)
Theorem RegisterNode_replaces_self :
  Examples.demoted_table
  = RegisterNode (NewClusterManager "node-1" "10.0.0.1:8080" 0)
      Examples.unknown_self 1 ∧
  ¬ self_healthy Examples.demoted_table ∧
  (∀ order, GetHealthyNodes Examples.demoted_table order = []) ∧
  (∀ order,
     SelectNodesForReplication Examples.demoted_table 1 order = Some []) ∧
  (∀ now pingNode order,
     performHealthCheck Examples.demoted_table now pingNode order
     = Examples.demoted_table).
Proof.
  pose proof demoted_table_unhealthy as Hnone.
  split; [done|]. split; [|split; [|split]].
  - intros (self & Hself & Hh). by destruct (Hnone _ _ Hself).
  - intros order. by apply GetHealthyNodes_nil.
  - intros order. rewrite SelectNodesForReplication_take by lia.
    by rewrite GetHealthyNodes_nil.
  - intros now pingNode order. unfold performHealthCheck.
    rewrite sweep_only_self; [done|].
    intros k Hk. rewrite demoted_table_nodes.
    rewrite lookup_insert_ne; [apply lookup_empty|]. by intros <-.
Qed.

End SelfEntry.

(** ** Replication: initiating a task *)


Section ReplicateObject.
Import Models Replication.
Implicit Types (rm : ReplicationManager) (data : Reader).


(** C1, as amended. When no node of the table, the process itself
    included, has Status "healthy" (and the replication factor is not
    negative), [ReplicateObject] returns the error "no healthy nodes
    available for replication" and the manager is as before: no task is
    recorded and no goroutine is started. *)
Theorem ReplicateObject_no_healthy_node rm (obj : nat) data order now :
  (∀ k node, Cluster.nodes (clusterManager rm) !! k = Some node →
             Cluster.Status node ≠ "healthy") →
  0 ≤ replicationFactor rm →
  ReplicateObject rm obj data order now = Some (Some ErrNoHealthyNodes, rm).
Proof.
  intros Hnone Hfactor. unfold ReplicateObject.
  rewrite SelectNodesForReplication_take by done.
  rewrite (GetHealthyNodes_nil _ _ Hnone). by rewrite take_nil.
Qed.

Lemma ReplicateObject_no_healthy_node_witness :
  ReplicateObject ReplicationExamples.no_target 0
    ReplicationExamples.payload ["node-1"] 5
  = Some (Some ErrNoHealthyNodes, ReplicationExamples.no_target).
Proof.
  apply ReplicateObject_no_healthy_node.
  - apply demoted_table_unhealthy.
  - simpl. lia.
Defined.

(** C1 as the specification words it does not hold: the process that knows
    no peer has no healthy peer, yet it is a healthy node of its own table,
    it becomes the target, and a task is recorded. *)
Lemma ReplicateObject_alone :
  ¬ (∀ rm (obj : nat) data order now,
       range_order (Cluster.nodes (clusterManager rm)) order →
       Cluster.no_healthy_peer (clusterManager rm) →
       ∃ rm',
         ReplicateObject rm obj data order now
         = Some (Some ErrNoHealthyNodes, rm') ∧
         pendingReplications rm' = pendingReplications rm).
Proof.
  intros Hclaim.
  destruct (Hclaim ReplicationExamples.alone 0%nat
              ReplicationExamples.payload ["node-1"] 5)
    as (rm' & Hres & _).
  - apply started_order.
  - intros k node Hk Hne. simpl in *.
    rewrite lookup_insert_ne in Hk by done. by rewrite lookup_empty in Hk.
  - vm_compute in Hres. discriminate.
Qed.

Lemma ReplicateObject_alone_task :
  ∃ rm',
    ReplicateObject ReplicationExamples.alone 0
      ReplicationExamples.payload ["node-1"] 5 = Some (None, rm') ∧
    GetReplicationStatus rm' "5d41402abc4b2a76b9719d911017c592"
    = Some (mkReplicationTask "5d41402abc4b2a76b9719d911017c592"
              "report.csv" "node-1" ["node-1"] "pending" 5 None "").
Proof. eexists. split; reflexivity. Qed.

End ReplicateObject.

(** ** Replication: running a task *)

Section ExecuteReplication.
Import Models Replication.
Implicit Types (rm : ReplicationManager) (data : Reader) (env : Env).
Implicit Types (t : ReplicationTask) (o : StorageObject).

Lemma filter_length_pos {A} (P : A → Prop) `{∀ x, Decision (P x)} (l : list A) :
  (0 < length (filter P l))%nat ↔ ∃ x, x ∈ l ∧ P x.
Proof.
  split.
  - intros Hlen. destruct (filter P l) as [|x l'] eqn:E; [simpl in Hlen; lia|].
    assert (x ∈ filter P l) as Hin by (rewrite E; left).
    apply list_elem_of_filter in Hin as [HP Hin]. by exists x.
  - intros (x & Hin & HP).
    assert (x ∈ filter P l) as Hf by (by apply list_elem_of_filter).
    destruct (filter P l); [by apply elem_of_nil in Hf | simpl; lia].
Qed.

(** A transfer reads the membership table and nothing else of the
    manager. *)
Lemma replicateToNode_cluster rm rm' env nodeID o buffer :
  clusterManager rm' = clusterManager rm →
  replicateToNode rm' env nodeID o buffer
  = replicateToNode rm env nodeID o buffer.
Proof. unfold replicateToNode. by intros ->. Qed.

Lemma fan_out_pos rm env targets o buffer :
  (0 < fan_out rm env targets o buffer)%nat ↔
  ∃ nID, nID ∈ targets ∧ replicateToNode rm env nID o buffer = true.
Proof. unfold fan_out. apply filter_length_pos. Qed.

(** A run on allocated records: the manager it ends in, the task record,
    and what the run left alone. *)
Lemma executeReplication_run rm (task obj : nat) data env t o :
  task_heap rm !! task = Some t →
  object_heap rm !! obj = Some o →
  ∃ rm' t',
    executeReplication rm task obj data env = Some rm' ∧
    object_heap rm' = object_heap rm ∧
    clusterManager rm' = clusterManager rm ∧
    task_heap rm' !! task = Some t' ∧
    GetReplicationStatus rm' (ObjectID t) = Some t' ∧
    CompletedAt t' = Some (now_CompletedAt env) ∧
    match failure data with
    | Some cause =>
        Status t' = "failed" ∧
        Error t' = "Failed to buffer data: " +:+ cause
    | None =>
        (Status t' = "completed" ↔
           ∃ nID, nID ∈ TargetNodes t ∧
                  replicateToNode rm env nID o (content data) = true) ∧
        (Status t' ≠ "completed" →
           Status t' = "failed" ∧
           Error t' = "Failed to replicate to any target node")
    end.
Proof.
  intros Htask Hobj. unfold executeReplication. rewrite Htask. simpl.
  destruct (failure data) as [cause|] eqn:Hfail.
  - eexists _, _. split; [reflexivity|].
    unfold GetReplicationStatus, markTaskFailed; simpl.
    rewrite lookup_insert_eq; simpl.
    rewrite !list_lookup_alter_eq, Htask; simpl. done.
  - rewrite Hobj; simpl.
    set (count := fan_out _ env (TargetNodes t) o (content data)).
    assert ((0 < count)%nat ↔
            ∃ nID, nID ∈ TargetNodes t ∧
                   replicateToNode rm env nID o (content data) = true)
      as Hcount.
    { unfold count. rewrite fan_out_pos.
      split; intros (nID & Hin & Hok); exists nID; (split; [done|]);
        rewrite <- Hok; [symmetry|]; by apply replicateToNode_cluster. }
    destruct (decide (0 < count)%nat) as [Hpos | Hzero];
      (eexists _, _; split; [reflexivity|]);
      unfold GetReplicationStatus, markTaskFailed; simpl;
      rewrite lookup_insert_eq; simpl;
      rewrite !list_lookup_alter_eq, Htask; simpl.
    + do 5 (split; [done|]). split; [|done].
      split; [by rewrite <- Hcount | done].
    + do 5 (split; [done|]). split; [|done].
      split; [done|]. by rewrite <- Hcount.
Qed.

(** C8. A run of [executeReplication] on a task record ends; the record,
    which is the one [GetReplicationStatus] shows, then has CompletedAt
    set.  If the payload could not be buffered its Status is "failed" and
    its Error names the cause.  Otherwise its Status is "completed" exactly
    when the transfer to at least one target returned success, and else it
    is "failed" with Error "Failed to replicate to any target node". *)
Theorem executeReplication_outcome rm (task obj : nat) data env t o :
  task_heap rm !! task = Some t →
  object_heap rm !! obj = Some o →
  ∃ rm' t',
    executeReplication rm task obj data env = Some rm' ∧
    task_heap rm' !! task = Some t' ∧
    GetReplicationStatus rm' (ObjectID t) = Some t' ∧
    CompletedAt t' = Some (now_CompletedAt env) ∧
    match failure data with
    | Some cause =>
        Status t' = "failed" ∧
        Error t' = "Failed to buffer data: " +:+ cause
    | None =>
        (Status t' = "completed" ↔
           ∃ nID, nID ∈ TargetNodes t ∧
                  replicateToNode rm env nID o (content data) = true) ∧
        (Status t' ≠ "completed" →
           Status t' = "failed" ∧
           Error t' = "Failed to replicate to any target node")
    end.
Proof.
  intros Htask Hobj.
  destruct (executeReplication_run rm task obj data env t o Htask Hobj)
    as (rm' & t' & Hrun & _ & _ & Hrest).
  by exists rm', t'.
Qed.

Lemma ReplicateObject_started rm (obj : nat) data order now rm1 :
  ReplicateObject rm obj data order now = Some (None, rm1) →
  ∃ o targetNodes,
    object_heap rm !! obj = Some o ∧
    Cluster.SelectNodesForReplication (clusterManager rm)
      (replicationFactor rm) order = Some targetNodes ∧
    targetNodes ≠ [] ∧
    object_heap rm1 = object_heap rm ∧
    clusterManager rm1 = clusterManager rm ∧
    pendingReplications rm1
    = <[ID o := length (task_heap rm)]> (pendingReplications rm) ∧
    task_heap rm1
    = task_heap rm ++
        [mkReplicationTask (ID o) (Key o)
           (Cluster.ID (Cluster.GetCurrentNode (clusterManager rm)))
           (Cluster.ID <$> targetNodes) "pending" now None ""] ∧
    goroutines rm1
    = goroutines rm ++ [mkGoroutine (length (task_heap rm)) obj data].
Proof.
  unfold ReplicateObject.
  destruct (Cluster.SelectNodesForReplication _ _ _) as [targetNodes|];
    simpl; [|done].
  case_decide as Hlen; [done|].
  destruct (object_heap rm !! obj) as [o|] eqn:Hobj; simpl; [|done].
  intros [= <-]. exists o, targetNodes. simpl.
  repeat split; try done. by intros ->.
Qed.

(** C9. From the call of [ReplicateObject] that starts a task to the end
    of the run of [executeReplication] it started, the memory of the
    storage objects is the same: the descriptor handed over has the
    Replicas, and every other field, it had at the call.  The run ends with
    the task record, not the descriptor, showing "completed" or
    "failed". *)
Theorem replication_keeps_descriptor rm (obj : nat) o data order now env rm1 :
  object_heap rm !! obj = Some o →
  ReplicateObject rm obj data order now = Some (None, rm1) →
  ∃ rm2 t,
    goroutines rm1
    = goroutines rm ++ [mkGoroutine (length (task_heap rm)) obj data] ∧
    executeReplication rm1 (length (task_heap rm)) obj data env = Some rm2 ∧
    GetReplicationStatus rm2 (ID o) = Some t ∧
    (Status t = "completed" ∨ Status t = "failed") ∧
    object_heap rm1 = object_heap rm ∧
    object_heap rm2 = object_heap rm ∧
    object_heap rm2 !! obj = Some o.
Proof.
  intros Hobj Hstart.
  destruct (ReplicateObject_started _ _ _ _ _ _ Hstart)
    as (o' & targetNodes & Hobj' & _ & _ & Hheap & _ & _ & Htasks & Hgo).
  rewrite Hobj in Hobj'. injection Hobj' as <-.
  set (task := mkReplicationTask _ _ _ _ _ _ _ _) in Htasks.
  assert (task_heap rm1 !! length (task_heap rm) = Some task) as Htask.
  { rewrite Htasks. by apply list_lookup_middle. }
  assert (object_heap rm1 !! obj = Some o) as Hobj1 by (by rewrite Hheap).
  destruct (executeReplication_run rm1 _ obj data env task o Htask Hobj1)
    as (rm2 & t & Hrun & Hheap2 & _ & _ & Hstatus & _ & Hend).
  exists rm2, t. split; [done|]. split; [done|]. split; [done|].
  split; [|split; [done|]; split; by rewrite Hheap2].
  destruct (failure data) as [cause|].
  - right. by destruct Hend.
  - destruct Hend as [_ Hfailed].
    destruct (decide (Status t = "completed")) as [|Hne]; [by left|].
    right. by destruct (Hfailed Hne).
Qed.

End ExecuteReplication.

(** ** Replication: three targets, two acknowledgements *)


Section FanOutFacts.
Import Models Replication FanOutExample.

Lemma trio_ReplicateObject :
  ReplicateObject trio 0 ReplicationExamples.payload order3 5
  = Some (None, trio_started).
Proof. reflexivity. Qed.

(** With replication factor 3 and two of the three targets acknowledging,
    the status reported for the object is "completed". *)
Lemma two_of_three_completed :
  fan_out trio_started two_of_three (TargetNodes trio_task)
    ReplicationExamples.report (content ReplicationExamples.payload) = 2%nat ∧
  ∃ rm',
    executeReplication trio_started 0 0 ReplicationExamples.payload
      two_of_three = Some rm' ∧
    GetReplicationStatus rm' "5d41402abc4b2a76b9719d911017c592"
    = Some (mkReplicationTask "5d41402abc4b2a76b9719d911017c592"
              "report.csv" "node-1" ["node-1"; "node-2"; "node-3"]
              "completed" 5 (Some 20) "").
Proof. split; [reflexivity|]. eexists. split; reflexivity. Qed.

(** C8, at the task with three targets of which two acknowledge. *)
Lemma executeReplication_outcome_witness :
  ∃ rm' t',
    executeReplication trio_started 0 0 ReplicationExamples.payload
      two_of_three = Some rm' ∧
    GetReplicationStatus rm' (ObjectID trio_task) = Some t' ∧
    CompletedAt t' = Some 20.
Proof.
  destruct (executeReplication_outcome trio_started 0 0
              ReplicationExamples.payload two_of_three trio_task
              ReplicationExamples.report)
    as (rm' & t' & Hrun & _ & Hstatus & Hat & _); [done|done|].
  by exists rm', t'.
Defined.

(** C9, at the same task. *)
Lemma replication_keeps_descriptor_witness :
  ∃ rm2,
    executeReplication trio_started 0 0 ReplicationExamples.payload
      two_of_three = Some rm2 ∧
    object_heap rm2 = object_heap trio ∧
    object_heap rm2 !! 0%nat = Some ReplicationExamples.report.
Proof.
  destruct (replication_keeps_descriptor trio 0 ReplicationExamples.report
              ReplicationExamples.payload order3 5 two_of_three trio_started)
    as (rm2 & t & _ & Hrun & _ & _ & _ & Hheap & Hobj);
    [done | apply trio_ReplicateObject |].
  by exists rm2.
Defined.

End FanOutFacts.

(** ** Store: paths of payload files and of the index document *)

Section Paths.

Lemma append_assoc (a b c : string) : (a +:+ b) +:+ c = a +:+ (b +:+ c).
Proof.
  induction a as [|ch a IH]; [done|].
  change (String ch ((a +:+ b) +:+ c) = String ch (a +:+ (b +:+ c))).
  by rewrite IH.
Qed.

Lemma hex_digit_not_m (n : N) : Fmt.hex_digit n ≠ "m"%char.
Proof.
  destruct n as [|p]; [done|].
  do 5 (try (destruct p as [p|p|]; try done)).
Qed.

Lemma Sprintf_x_not_document (bs : list Byte.byte) :
  Fmt.Sprintf_x bs ≠ "metadata/objects.json".
Proof.
  destruct bs as [|b bs]; [done|].
  change (Fmt.Sprintf_x (b :: bs))
    with (String (Fmt.hex_digit (Byte.to_N b / 16))
            (String (Fmt.hex_digit (Byte.to_N b mod 16)) (Fmt.Sprintf_x bs))).
  intros [= Hm _]. by apply hex_digit_not_m in Hm.
Qed.

(** A payload file, named by a hexadecimal digest, is never the index
    document of the same storage root. *)
Lemma payload_file_not_document (base : string) (bs : list Byte.byte) :
  Filepath.Join base (Fmt.Sprintf_x bs)
  ≠ Filepath.Join (Filepath.Join base "metadata") "objects.json".
Proof.
  unfold Filepath.Join. rewrite append_assoc. intros Heq.
  apply (inj (String.append base)) in Heq.
  change (String "/" (Fmt.Sprintf_x bs)
          = String "/" "metadata/objects.json") in Heq.
  injection Heq as Heq. by apply Sprintf_x_not_document in Heq.
Qed.

End Paths.

(** ** Store: Put, Get and Delete *)

Section StoreFacts.
Import Models Storage.

Variable md5_Sum : list Byte.byte → list Byte.byte.
Variable json_Marshal : gmap string StorageObject → list Byte.byte.

Implicit Types (fs : FileStore) (disk : Disk) (data : Reader).
Implicit Types (obj : StorageObject) (env : PutEnv).


Lemma payload_file_not_metadata fs key env :
  rooted fs → payload_file md5_Sum fs key env ≠ metadata_file fs.
Proof.
  intros Hroot. unfold payload_file, metadata_file, object_id.
  rewrite Hroot. apply payload_file_not_document.
Qed.

Lemma io_Copy_done data fault written :
  io_Copy data fault = CopyDone written →
  written = content data ∧ failure data = None.
Proof.
  unfold io_Copy. destruct fault as [[n cause]|].
  - case_decide; [done|]. destruct (failure data); [done|]. by intros [= <-].
  - destruct (failure data); [done|]. by intros [= <-].
Qed.

(** Whatever happens to the index document, no other file is touched, and
    the document is the encoding of the index when the host accepts the
    write. *)
Lemma saveMetadata_other fs disk fault path :
  path ≠ metadata_file fs →
  saveMetadata json_Marshal fs disk fault !! path = disk !! path.
Proof.
  intros Hpath. unfold saveMetadata, os_WriteFile.
  destruct fault as [[|n]|]; [done| |]; by rewrite lookup_insert_ne.
Qed.

Lemma saveMetadata_written fs disk :
  saveMetadata json_Marshal fs disk None !! metadata_file fs
  = Some (json_Marshal (objects fs)).
Proof. unfold saveMetadata. simpl. by rewrite lookup_insert_eq. Qed.

Lemma saveMetadata_refused fs disk :
  saveMetadata json_Marshal fs disk (Some OpenRefused) = disk.
Proof. reflexivity. Qed.

Lemma Put_Returned fs disk key data contentType env obj fs1 disk1 :
  Put md5_Sum json_Marshal fs disk key data contentType env
  = (Returned obj, fs1, disk1) →
  obj = mkStorageObject (object_id md5_Sum key env) key
          (Z.of_nat (length (content data))) contentType
          (Fmt.Sprintf_x (md5_Sum (content data)))
          (now_CreatedAt env) (now_UpdatedAt env) 0 (now_LastAccess env)
          ∅ "hot"
          [mkReplicaInfo "node-1" (payload_file md5_Sum fs key env) "active"] ∧
  fs1 = set_objects (<[key := obj]> (objects fs)) fs ∧
  disk1 = saveMetadata json_Marshal fs1
            (<[payload_file md5_Sum fs key env := content data]>
               (<[payload_file md5_Sum fs key env := []]> disk))
            (save_fault env).
Proof.
  unfold Put. destruct (create_fault env); [done|].
  destruct (io_Copy data (write_fault env)) as [written|written cause] eqn:Hcopy;
    [|done].
  apply io_Copy_done in Hcopy as [-> _].
  intros [= <- <- <-]. done.
Qed.

(** C3. After a successful [Put] of a payload under a key, [Get] of that
    key returns the bytes of the payload, and the descriptor it returns
    has as Checksum the hexadecimal MD5 digest of those bytes. *)
Theorem Put_then_Get fs disk key data contentType env now fault obj fs1
    disk1 :
  rooted fs →
  Put md5_Sum json_Marshal fs disk key data contentType env
  = (Returned obj, fs1, disk1) →
  ∃ obj' fs2 disk2,
    Get json_Marshal fs1 disk1 key now fault
    = (Returned (content data, obj'), fs2, disk2) ∧
    Checksum obj' = Fmt.Sprintf_x (md5_Sum (content data)) ∧
    Checksum obj = Fmt.Sprintf_x (md5_Sum (content data)) ∧
    Key obj' = key.
Proof.
  intros Hroot Hput.
  pose proof (payload_file_not_metadata fs key env Hroot) as Hpath.
  apply Put_Returned in Hput as (-> & -> & ->).
  unfold Get. simpl. rewrite lookup_insert_eq. simpl.
  rewrite !saveMetadata_other by exact Hpath.
  rewrite lookup_insert_eq.
  by eexists _, _, _.
Qed.

Lemma Put_succeeds fs disk key data contentType env :
  create_fault env = None → write_fault env = None → failure data = None →
  ∃ obj fs1 disk1,
    Put md5_Sum json_Marshal fs disk key data contentType env
    = (Returned obj, fs1, disk1).
Proof.
  intros Hcreate Hwrite Hread. unfold Put, io_Copy.
  rewrite Hcreate, Hwrite, Hread. by eexists _, _, _.
Qed.


Lemma int64_wrap_in_range (x : Z) :
  Int64.in_range x → Int64.int64_wrap x = x.
Proof.
  unfold Int64.in_range, Int64.int64_wrap, Int64.min_int, Int64.max_int.
  intros Hx. rewrite Z.mod_small; lia.
Qed.

(** At the largest int64 the increment wraps around. *)
Lemma incr_max_int : Int64.incr Int64.max_int = Int64.min_int.
Proof. reflexivity. Qed.


(** The files left after the removal loop of [Delete]. *)
Lemma remove_replicas_lookup (replicas : list ReplicaInfo) :
  ∀ disk path,
    foldl (λ d replica, delete (FilePath replica) d) disk replicas !! path
    = if decide (path ∈ FilePath <$> replicas) then None else disk !! path.
Proof.
  induction replicas as [|replica replicas IH]; intros disk path.
  - rewrite decide_False; [done|]. apply not_elem_of_nil.
  - rewrite fmap_cons. simpl. rewrite IH.
    rewrite (decide_ext _ _ _ _ (elem_of_cons _ path (FilePath replica))).
    destruct (decide (path = FilePath replica)) as [->|Hne].
    + rewrite lookup_delete_eq.
      rewrite (decide_True (P := _ ∨ _)) by (by left). by case_decide.
    + rewrite lookup_delete_ne by done.
      destruct (decide (path ∈ FilePath <$> replicas)) as [Hin|Hin].
      * by rewrite decide_True by (by right).
      * rewrite decide_False; [done|]. by intros [?|?].
Qed.


Lemma NewFileStore_rooted json_Unmarshal (basePath : string) disk :
  rooted (NewFileStore json_Unmarshal basePath disk).
Proof.
  unfold NewFileStore, loadMetadata. by destruct (disk !! _).
Qed.

Lemma Get_rooted fs disk key now fault :
  rooted fs → rooted (Get json_Marshal fs disk key now fault).1.2.
Proof.
  intros Hroot. unfold Get. destruct (objects fs !! key) as [obj|]; [|done].
  simpl. by repeat case_match.
Qed.

Lemma Delete_rooted fs disk key fault :
  rooted fs → rooted (Delete json_Marshal fs disk key fault).1.2.
Proof.
  intros Hroot. unfold Delete. by destruct (objects fs !! key).
Qed.


End StoreFacts.

(** ** Store: a run on a fresh storage root *)


Section StoreRuns.
Import Models Storage StoreExamples.

Lemma fresh_rooted : rooted fresh.
Proof. reflexivity. Qed.

Lemma after_put_Returned :
  ∃ obj, after_put = (Returned obj, stored, stored_disk) ∧
         objects stored !! "report.csv" = Some obj ∧
         Size obj = 3 ∧ StorageTier obj = "hot" ∧ AccessCount obj = 0 ∧
         LastAccess obj = 10 ∧
         Replicas obj
         = [mkReplicaInfo "node-1"
              (payload_file plain_sum fresh "report.csv" calm) "active"].
Proof. eexists. repeat split; reflexivity. Qed.

(** C3, at the payload "abc" stored under "report.csv". *)
Lemma Put_then_Get_witness :
  ∃ obj' fs2 disk2,
    Get plain_marshal stored stored_disk "report.csv" 20 None
    = (Returned (content payload, obj'), fs2, disk2) ∧
    Checksum obj' = Fmt.Sprintf_x (plain_sum (content payload)).
Proof.
  destruct after_put_Returned as (obj & Hput & _).
  destruct (Put_then_Get plain_sum plain_marshal fresh ∅ "report.csv"
              payload "text/csv" calm 20 None obj stored stored_disk
              fresh_rooted Hput)
    as (obj' & fs2 & disk2 & Hget & Hsum & _).
  by exists obj', fs2, disk2.
Defined.




Lemma Get_unsaved_stream :
  ∃ obj' fs',
    Get plain_marshal unsaved unsaved_disk "report.csv" 20
      (Some OpenRefused)
    = (Returned (content payload, obj'), fs', unsaved_disk) ∧
    AccessCount obj' = 1 ∧
    unsaved_disk !! metadata_file fs' = None.
Proof. eexists _, _. split; [reflexivity|]. split; reflexivity. Qed.

(** With the clock set back below the LastAccess of the entry, the entry
    gets the earlier time. *)
Lemma Get_clock_set_back :
  ∃ result fs' disk' obj obj',
    objects stored !! "report.csv" = Some obj ∧
    Get plain_marshal stored stored_disk "report.csv" 5 None
    = (result, fs', disk') ∧
    objects fs' !! "report.csv" = Some obj' ∧
    LastAccess obj' < LastAccess obj.
Proof. eexists _, _, _, _, _. repeat split; reflexivity. Qed.


End StoreRuns.

(** * Further properties of the code *)

(** ** Membership: what a sweep does to the table *)

Section SweepFacts.
Import Cluster ClusterStats.
Implicit Types (cm : ClusterManager) (table : gmap string Node) (node : Node).

Lemma swept_identity self now pingNode k node :
  same_identity node (swept self now pingNode k node).
Proof. unfold swept, same_identity. by repeat case_match. Qed.

Lemma check_node_swept self now pingNode table k :
  check_node self now pingNode table k
  = match table !! k with
    | Some node => <[k := swept self now pingNode k node]> table
    | None => table
    end.
Proof.
  unfold check_node, swept. destruct (table !! k) as [node|] eqn:Hk; [|done].
  repeat case_match; try done. by rewrite insert_id.
Qed.

Lemma check_node_lookup self now pingNode table k k' :
  check_node self now pingNode table k !! k'
  = if decide (k' = k) then swept self now pingNode k <$> table !! k
    else table !! k'.
Proof.
  rewrite check_node_swept. destruct (decide (k' = k)) as [->|Hne].
  - destruct (table !! k) as [node|] eqn:Hk; [|done].
    by rewrite lookup_insert_eq.
  - destruct (table !! k) as [node|] eqn:Hk; [|done].
    by rewrite lookup_insert_ne.
Qed.

(** A loop that visits no key twice applies the body once to each entry it
    visits. *)
Lemma sweep_lookup self now pingNode order :
  NoDup order →
  ∀ table k,
    foldl (check_node self now pingNode) table order !! k
    = if decide (k ∈ order) then swept self now pingNode k <$> table !! k
      else table !! k.
Proof.
  induction order as [|k0 order IH]; intros Hnodup table k.
  - by rewrite decide_False by apply not_elem_of_nil.
  - apply NoDup_cons in Hnodup as [Hfresh Hnodup].
    change (foldl ?f table (k0 :: order)) with (foldl f (f table k0) order).
    rewrite (IH Hnodup). rewrite check_node_lookup.
    destruct (decide (k = k0)) as [->|Hne].
    + destruct (decide (k0 ∈ order)) as [Hin|_]; [done|].
      by destruct (decide (k0 ∈ k0 :: order)) as [_|[]]; [|left].
    + destruct (decide (k ∈ order)) as [Hin|Hin];
        destruct (decide (k ∈ k0 :: order)) as [Hin'|Hin']; try done.
      * destruct Hin'. by right.
      * by apply elem_of_cons in Hin' as [?|?].
Qed.
End SweepFacts.

Section SweepProperties.
Import Cluster ClusterStats.
Implicit Types (cm : ClusterManager) (table : gmap string Node) (node : Node).

Lemma range_order_insert_fresh {V} (m : gmap string V) order k v :
  range_order m order → m !! k = None →
  range_order (<[k := v]> m) (order ++ [k]).
Proof.
  intros [Hnodup Hall] Hfresh. split.
  - apply NoDup_app. split; [done|]. split; [|apply NoDup_singleton].
    intros k' Hin ->%list_elem_of_singleton.
    apply Hall in Hin. rewrite Hfresh in Hin. by destruct Hin.
  - intros k'. rewrite elem_of_app, list_elem_of_singleton.
    rewrite lookup_insert_is_Some, Hall.
    destruct (decide (k = k')) as [->|Hne]; [by split; intros; [left|right]|].
    split.
    + intros [Hin|Heq]; [by right | by destruct Hne].
    + intros [Heq|[_ Hin]]; [by destruct Hne | by left].
Qed.

Lemma two_nodes_order :
  range_order (nodes Examples.two_nodes) ["node-1"; "node-2"].
Proof.
  apply (range_order_insert_fresh _ ["node-1"]); [apply started_order|done].
Qed.

Lemma same_identity_refl node : same_identity node node.
Proof. by repeat split. Qed.

Lemma same_identity_trans n1 n2 n3 :
  same_identity n1 n2 → same_identity n2 n3 → same_identity n1 n3.
Proof.
  unfold same_identity. intros (?&?&?&?&?) (?&?&?&?&?).
  repeat split; congruence.
Qed.

Lemma sweep_shape self now pingNode order :
  ∀ table k,
    option_Forall2 same_identity (table !! k)
      (foldl (check_node self now pingNode) table order !! k).
Proof.
  induction order as [|k0 order IH]; intros table k.
  - simpl. destruct (table !! k); constructor. apply same_identity_refl.
  - change (foldl ?f table (k0 :: order)) with (foldl f (f table k0) order).
    pose proof (IH (check_node self now pingNode table k0) k) as Hrest.
    rewrite check_node_lookup in Hrest.
    destruct (decide (k = k0)) as [->|Hne]; [|done].
    destruct (table !! k0) as [node|]; simpl in Hrest; [|done].
    inversion Hrest as [? node' Hid|]; subst. constructor.
    eapply same_identity_trans; [apply swept_identity | done].
Qed.

(** X1. A health sweep neither adds nor removes a node, and it leaves the
    ID, Address, Load, Capacity and Used of every node, and the current
    node of the manager, as they were: under each key there is an entry
    after the sweep exactly when there was one before, with these fields
    unchanged. *)
Theorem performHealthCheck_shape cm now pingNode order k :
  currentNode (performHealthCheck cm now pingNode order) = currentNode cm ∧
  option_Forall2 same_identity (nodes cm !! k)
    (nodes (performHealthCheck cm now pingNode order) !! k).
Proof. split; [done|]. apply sweep_shape. Qed.

(** X2. A sweep that visits every key once decides each peer by its own
    entry alone: the entry is "healthy" afterwards exactly when it was seen
    within the last 60 seconds and the peer answered the probe, and then its
    LastSeen is the time of the sweep; otherwise it is "unhealthy" with
    LastSeen as before.  The entry under the ID of the current node is not
    touched. *)
Theorem performHealthCheck_peer cm now pingNode order k node :
  range_order (nodes cm) order →
  nodes cm !! k = Some node →
  k ≠ ID (currentNode cm) →
  ∃ node',
    nodes (performHealthCheck cm now pingNode order) !! k = Some node' ∧
    (Status node' = "healthy" ↔
       Duration.Sub now (LastSeen node) ≤ stale_after ∧ pingNode node = true) ∧
    (Status node' = "healthy" → LastSeen node' = now) ∧
    (Status node' ≠ "healthy" →
       Status node' = "unhealthy" ∧ LastSeen node' = LastSeen node) ∧
    nodes (performHealthCheck cm now pingNode order) !! ID (currentNode cm)
    = nodes cm !! ID (currentNode cm).
Proof.
  intros [Hnodup Hall] Hk Hpeer. simpl.
  rewrite sweep_self. rewrite (sweep_lookup _ _ _ _ Hnodup).
  rewrite decide_True by (apply Hall; by exists node).
  rewrite Hk. simpl. eexists. split; [done|].
  unfold swept. rewrite decide_False by done.
  destruct (decide (Duration.Sub now (LastSeen node) > stale_after)) as [Hs|Hs];
    [|destruct (pingNode node) eqn:Hping]; simpl.
  - split; [split; [done|lia]|]. by split.
  - split; [split; [intros _; split; [lia|done] | done]|]. by split.
  - split; [split; [done|by intros [_ ?]]|]. by split.
Qed.

Lemma performHealthCheck_peer_witness :
  ∃ node',
    nodes (performHealthCheck Examples.two_nodes 30 (λ _, true)
             ["node-1"; "node-2"]) !! "node-2" = Some node' ∧
    Status node' = "healthy" ∧ LastSeen node' = 30.
Proof.
  destruct (performHealthCheck_peer Examples.two_nodes 30 (λ _, true)
              ["node-1"; "node-2"] "node-2" (set_LastSeen 1 Examples.peer))
    as (node' & Hk & Hh & Hseen & _).
  - apply two_nodes_order.
  - reflexivity.
  - done.
  - exists node'. split; [done|].
    assert (Status node' = "healthy") as Hst.
    { apply Hh. split; [|done]. vm_compute. discriminate. }
    split; [done|]. by apply Hseen.
Defined.

Lemma stale_step self now pingNode start table k node :
  k ≠ self → start ≤ now →
  Status node = "unhealthy" →
  Duration.Sub start (LastSeen node) > stale_after →
  table !! k = Some node →
  ∀ k0, check_node self now pingNode table k0 !! k = Some node.
Proof.
  intros Hpeer Hlater Hst Hstale Hk k0. rewrite check_node_lookup.
  destruct (decide (k = k0)) as [<-|Hne]; [|done].
  rewrite Hk. simpl. f_equal. unfold swept.
  rewrite decide_False by done.
  rewrite decide_True.
  - destruct node. simpl in *. by subst.
  - unfold Duration.Sub in *. lia.
Qed.

(** X3. A peer that a sweep has found stale stays "unhealthy": as long as
    only sweeps follow (at that time or later, in any order, whatever the
    peer answers to probes), its entry does not change, since a stale peer
    is not probed and only a probe or a registration renews LastSeen. *)
Theorem stale_peer_stays_unhealthy cm start events k node :
  nodes cm !! k = Some node →
  k ≠ ID (currentNode cm) →
  Status node = "unhealthy" →
  Duration.Sub start (LastSeen node) > stale_after →
  Forall (sweep_from start) events →
  nodes (run cm events) !! k = Some node.
Proof.
  intros Hk Hpeer Hst Hstale Hevents. revert cm Hk Hpeer.
  induction Hevents as [|e events He _ IH]; intros cm Hk Hpeer; [done|].
  simpl. destruct e as [|now pingNode order]; [done|]. simpl in He.
  apply IH; [|done]. simpl.
  clear IH. generalize dependent (nodes cm). intros table.
  revert table. induction order as [|k0 order IHo]; intros table Hk; [done|].
  simpl. apply IHo. by eapply stale_step.
Qed.

Lemma stale_peer_stays_unhealthy_witness :
  nodes (run (performHealthCheck Examples.two_nodes 70000000000 (λ _, true)
                ["node-1"; "node-2"])
             [Sweep 70000000001 (λ _, true) ["node-2"; "node-1"];
              Sweep 80000000000 (λ _, true) ["node-1"; "node-2"]])
    !! "node-2"
  = Some (set_Status "unhealthy" (set_LastSeen 1 Examples.peer)).
Proof.
  apply (stale_peer_stays_unhealthy _ 70000000000).
  - reflexivity.
  - done.
  - reflexivity.
  - vm_compute. reflexivity.
  - repeat constructor; simpl; lia.
Defined.

End SweepProperties.

(** ** Membership: registration, and the entry of the process itself *)

Section RegistrationProperties.
Import Cluster ClusterStats.
Implicit Types (cm : ClusterManager) (node : Node) (order : list string).

(** X4. A registration stores the descriptor, with LastSeen set to the time
    of the call, under its ID and leaves every other entry alone; the node is
    among the healthy nodes right away exactly when the descriptor it posted
    says "healthy" (a node posted as "unknown" is not).  After the next
    sweep, if it comes within 60 seconds, a node other than the process
    itself is healthy exactly when it answered the probe, whatever its
    descriptor said. *)
Theorem RegisterNode_then_sweep cm node t0 t1 pingNode order order' :
  ID node ≠ ID (currentNode cm) →
  Duration.Sub t1 t0 ≤ stale_after →
  range_order (nodes (RegisterNode cm node t0)) order →
  range_order (nodes (RegisterNode cm node t0)) order' →
  let cm1 := RegisterNode cm node t0 in
  let cm2 := performHealthCheck cm1 t1 pingNode order' in
  nodes cm1 !! ID node = Some (set_LastSeen t0 node) ∧
  (∀ k, k ≠ ID node → nodes cm1 !! k = nodes cm !! k) ∧
  (set_LastSeen t0 node ∈ GetHealthyNodes cm1 order ↔
     Status node = "healthy") ∧
  ∃ node',
    nodes cm2 !! ID node = Some node' ∧
    (Status node' = "healthy" ↔ pingNode (set_LastSeen t0 node) = true) ∧
    (node' ∈ GetHealthyNodes cm2 order ↔
       pingNode (set_LastSeen t0 node) = true).
Proof.
  intros Hpeer Hsoon Horder Horder' cm1 cm2.
  assert (nodes cm1 !! ID node = Some (set_LastSeen t0 node)) as Hk
    by apply lookup_insert_eq.
  split; [done|]. split; [intros k Hk'; by apply lookup_insert_ne|]. split.
  - rewrite elem_of_GetHealthyNodes. split; [by intros [? _]|].
    intros Hh. split; [done|]. exists (ID node). split; [|done].
    apply Horder. by eexists.
  - destruct Horder' as [Hnodup Hall].
    assert (nodes cm2 !! ID node
            = Some (swept (ID (currentNode cm)) t1 pingNode (ID node)
                      (set_LastSeen t0 node))) as Hk2.
    { unfold cm2. simpl. rewrite (sweep_lookup _ _ _ _ Hnodup).
      rewrite decide_True by (apply Hall; by eexists).
      unfold cm1 in Hk. simpl in Hk. by rewrite Hk. }
    eexists. split; [exact Hk2|].
    assert (Status (swept (ID (currentNode cm)) t1 pingNode (ID node)
                      (set_LastSeen t0 node)) = "healthy"
            ↔ pingNode (set_LastSeen t0 node) = true) as Hst.
    { unfold swept. rewrite decide_False by done.
      rewrite decide_False by (simpl; lia).
      by destruct (pingNode (set_LastSeen t0 node)). }
    split; [done|].
    rewrite elem_of_GetHealthyNodes, Hst. split; [by intros [? _]|].
    intros Hping. split; [done|]. exists (ID node). split; [|done].
    apply Horder. by eexists.
Qed.

Lemma RegisterNode_then_sweep_witness :
  ¬ set_LastSeen 1 Examples.peer
      ∈ GetHealthyNodes Examples.two_nodes ["node-1"; "node-2"] ∧
  ∃ node',
    nodes (performHealthCheck Examples.two_nodes 30 (λ _, true)
             ["node-1"; "node-2"]) !! "node-2" = Some node' ∧
    node' ∈ GetHealthyNodes
              (performHealthCheck Examples.two_nodes 30 (λ _, true)
                 ["node-1"; "node-2"]) ["node-1"; "node-2"].
Proof.
  destruct (RegisterNode_then_sweep Examples.started Examples.peer 1 30
              (λ _, true) ["node-1"; "node-2"] ["node-1"; "node-2"])
    as (_ & _ & Hnow & node' & Hk & _ & Hin).
  - done.
  - vm_compute. discriminate.
  - apply two_nodes_order.
  - apply two_nodes_order.
  - split.
    + intros Hmem. by apply Hnow in Hmem.
    + exists node'. split; [done|]. by apply Hin.
Defined.

Lemma run_foreign_self nodeID nodeAddress t0 events :
  Forall (foreign nodeID) events →
  let cm := run (NewClusterManager nodeID nodeAddress t0) events in
  currentNode cm = self_node nodeID nodeAddress t0 ∧
  nodes cm !! nodeID = Some (self_node nodeID nodeAddress t0).
Proof.
  intros Hevents. simpl.
  assert (∀ cm,
    currentNode cm = self_node nodeID nodeAddress t0 →
    nodes cm !! nodeID = Some (self_node nodeID nodeAddress t0) →
    currentNode (run cm events) = self_node nodeID nodeAddress t0 ∧
    nodes (run cm events) !! nodeID = Some (self_node nodeID nodeAddress t0))
    as Hinv.
  { induction Hevents as [|e events He _ IH]; intros cm Hcur Hself; [done|].
    simpl. apply IH.
    - by destruct e.
    - destruct e as [node now|now pingNode order]; simpl in *.
      + by rewrite lookup_insert_ne.
      + rewrite Hcur. simpl. by rewrite sweep_self. }
  apply Hinv; [done|]. simpl. apply lookup_insert_eq.
Qed.

(** X5. As long as no registration carries the ID of the process itself,
    the entry the constructor made stays in the table through all
    registrations and sweeps, and with it the placement queries always have
    an answer: [GetHealthyNodes] is not empty, [SelectNodeForWrite] returns
    a node, and [SelectNodesForReplication] returns at least one node for a
    count of 1 or more. *)
Theorem self_always_placeable nodeID nodeAddress t0 events order :
  Forall (foreign nodeID) events →
  range_order (nodes (run (NewClusterManager nodeID nodeAddress t0) events))
    order →
  let cm := run (NewClusterManager nodeID nodeAddress t0) events in
  GetHealthyNodes cm order ≠ [] ∧
  is_Some (SelectNodeForWrite cm order) ∧
  ∀ n : Z, 1 ≤ n →
    ∃ selected, SelectNodesForReplication cm n order = Some selected ∧
                selected ≠ [].
Proof.
  intros Hevents Horder cm.
  destruct (run_foreign_self nodeID nodeAddress t0 events Hevents)
    as [Hcur Hself]. fold cm in Hcur, Hself.
  assert (self_node nodeID nodeAddress t0 ∈ GetHealthyNodes cm order) as Hin.
  { apply elem_of_GetHealthyNodes. split; [done|].
    exists nodeID. split; [|done]. apply Horder. by eexists. }
  assert (GetHealthyNodes cm order ≠ []) as Hne.
  { intros Hnil. rewrite Hnil in Hin. by apply elem_of_nil in Hin. }
  split; [done|]. split.
  - destruct (SelectNodeForWrite cm order) as [best|] eqn:Hsel; [by eexists|].
    rewrite SelectNodeForWrite_None in Hsel.
    specialize (Hsel _ Hin). vm_compute in Hsel. discriminate.
  - intros n Hn. eexists. split; [apply SelectNodesForReplication_take; lia|].
    destruct (GetHealthyNodes cm order) as [|node l]; [done|].
    replace (Z.to_nat n) with (S (Z.to_nat (n - 1))) by lia. done.
Qed.

Lemma self_always_placeable_witness :
  is_Some (SelectNodeForWrite
             (run (NewClusterManager "node-1" "10.0.0.1:8080" 0)
                  [Register Examples.peer 1])
             ["node-1"; "node-2"]).
Proof.
  apply (self_always_placeable "node-1" "10.0.0.1:8080" 0
           [Register Examples.peer 1] ["node-1"; "node-2"]).
  - repeat constructor. done.
  - apply two_nodes_order.
Defined.

End RegistrationProperties.

(** ** Membership: the statistics *)

Section StatsProperties.
Import Cluster ClusterStats.
Implicit Types (cm : ClusterManager) (node : Node) (order : list string).

Lemma int64_wrap_add_l (x y : Z) :
  Int64.int64_wrap (Int64.int64_wrap x + y) = Int64.int64_wrap (x + y).
Proof.
  unfold Int64.int64_wrap. f_equal.
  replace ((x + 2 ^ 63) mod 2 ^ 64 - 2 ^ 63 + y + 2 ^ 63)
    with ((x + 2 ^ 63) mod 2 ^ 64 + y) by lia.
  rewrite Zplus_mod_idemp_l. f_equal. lia.
Qed.

Lemma range_values_permutation {V} (m : gmap string V) order order' :
  range_order m order → range_order m order' →
  range_values m order ≡ₚ range_values m order'.
Proof.
  intros [Hnodup Hall] [Hnodup' Hall']. unfold range_values.
  apply omap_Permutation, NoDup_Permutation; [done|done|].
  intros k. by rewrite Hall, Hall'.
Qed.

Lemma range_order_length {V} (m : gmap string V) order :
  range_order m order → length order = size m.
Proof.
  intros Horder. rewrite <- size_dom.
  apply Permutation_length, NoDup_Permutation.
  - apply Horder.
  - apply NoDup_elements.
  - intros k. rewrite elem_of_elements, elem_of_dom. apply Horder.
Qed.

Lemma range_order_permutation {V} (m : gmap string V) order order' :
  range_order m order → order ≡ₚ order' → range_order m order'.
Proof.
  intros [Hnodup Hall] Hperm. split; [by rewrite <- Hperm|].
  intros k. by rewrite <- Hperm.
Qed.

Lemma sum_snoc (l : list Z) (x : Z) :
  foldr Z.add 0 (l ++ [x]) = foldr Z.add 0 l + x.
Proof. induction l as [|y l IH]; simpl; lia. Qed.

(** The counters after the loop has visited [l]. *)
Lemma count_loop (l : list Node) :
  foldl count_step (0, 0, 0) l
  = (Int64.int64_wrap
       (Z.of_nat (length (filter (λ node, Status node = "healthy") l))),
     Int64.int64_wrap (foldr Z.add 0 (Capacity <$> l)),
     Int64.int64_wrap (foldr Z.add 0 (Used <$> l))).
Proof.
  induction l as [|node l IH] using rev_ind; [done|].
  rewrite foldl_snoc, IH. unfold count_step.
  rewrite !fmap_app, !list_fmap_singleton, !sum_snoc, !int64_wrap_add_l.
  rewrite filter_app, length_app.
  do 2 f_equal.
  rewrite filter_cons. case_decide; simpl.
  - unfold Int64.incr. rewrite int64_wrap_add_l. f_equal. lia.
  - f_equal. lia.
Qed.

(** X6. The statistics do not depend on the order in which the table is
    visited.  [total_nodes] is the number of entries, [healthy_nodes] the
    number of nodes [GetHealthyNodes] returns, [total_capacity] and
    [total_used] the sums of the two fields over all entries (each number
    reduced to an int64), and [nodes] the table itself. *)
Theorem GetClusterStats_spec cm order order' :
  range_order (nodes cm) order →
  range_order (nodes cm) order' →
  GetClusterStats cm order = GetClusterStats cm order' ∧
  total_nodes (GetClusterStats cm order) = Z.of_nat (length order') ∧
  healthy_nodes (GetClusterStats cm order)
  = Int64.int64_wrap (Z.of_nat (length (GetHealthyNodes cm order'))) ∧
  total_capacity (GetClusterStats cm order)
  = Int64.int64_wrap
      (foldr Z.add 0 (Capacity <$> range_values (nodes cm) order')) ∧
  total_used (GetClusterStats cm order)
  = Int64.int64_wrap
      (foldr Z.add 0 (Used <$> range_values (nodes cm) order')) ∧
  stats_nodes (GetClusterStats cm order) = nodes cm.
Proof.
  intros Horder Horder'.
  pose proof (range_values_permutation _ _ _ Horder Horder') as Hperm.
  assert (GetClusterStats cm order = GetClusterStats cm order') as Heq.
  { unfold GetClusterStats. rewrite !count_loop.
    assert (length (filter (λ node, Status node = "healthy")
                      (range_values (nodes cm) order))
            = length (filter (λ node, Status node = "healthy")
                        (range_values (nodes cm) order'))) as ->
      by (by rewrite Hperm).
    assert (foldr Z.add 0 (Capacity <$> range_values (nodes cm) order)
            = foldr Z.add 0 (Capacity <$> range_values (nodes cm) order'))
      as ->.
    { apply (foldr_permutation_proper (=) Z.add);
        [solve_proper | intros; lia | by apply fmap_Permutation]. }
    assert (foldr Z.add 0 (Used <$> range_values (nodes cm) order)
            = foldr Z.add 0 (Used <$> range_values (nodes cm) order')) as ->.
    { apply (foldr_permutation_proper (=) Z.add);
        [solve_proper | intros; lia | by apply fmap_Permutation]. }
    done. }
  split; [done|]. rewrite Heq.
  unfold GetClusterStats. rewrite count_loop. simpl.
  split; [by rewrite (range_order_length _ _ Horder')|]. done.
Qed.

Lemma GetClusterStats_spec_witness :
  GetClusterStats Examples.two_nodes ["node-1"; "node-2"]
  = GetClusterStats Examples.two_nodes ["node-2"; "node-1"] ∧
  total_nodes (GetClusterStats Examples.two_nodes ["node-1"; "node-2"]) = 2.
Proof.
  destruct (GetClusterStats_spec Examples.two_nodes ["node-1"; "node-2"]
              ["node-2"; "node-1"]) as (Heq & Htotal & _).
  - apply two_nodes_order.
  - apply (range_order_permutation _ _ _ two_nodes_order), perm_swap.
  - by split.
Defined.

End StatsProperties.

(** ** Store: restart, frames and histories *)

Section StoreHistoryProperties.
Import Models Storage StoreHistory.

Variable md5_Sum : list Byte.byte → list Byte.byte.
Variable json_Marshal : gmap string StorageObject → list Byte.byte.
Variable json_Unmarshal : list Byte.byte → gmap string StorageObject.

Implicit Types (fs : FileStore) (disk : Disk) (data : Reader).
Implicit Types (obj : StorageObject) (env : PutEnv) (op : Op).
Implicit Types (s : FileStore * Disk).


Lemma metadata_file_set_objects m fs :
  metadata_file (set_objects m fs) = metadata_file fs.
Proof. reflexivity. Qed.


Ltac disk_lookup :=
  repeat first
    [ rewrite lookup_insert_eq
    | rewrite lookup_delete_eq
    | rewrite lookup_insert_ne by congruence
    | rewrite lookup_delete_ne by congruence
    | rewrite saveMetadata_other by assumption ].

(** The store and the disk a [Get] of a present key leaves. *)
Lemma Get_present fs disk key now fault obj :
  objects fs !! key = Some obj →
  ∃ result,
    Get json_Marshal fs disk key now fault
    = (result,
       set_objects
         (<[key := set_LastAccess now
                     (set_AccessCount (Int64.incr (AccessCount obj)) obj)]>
            (objects fs)) fs,
       saveMetadata json_Marshal
         (set_objects
            (<[key := set_LastAccess now
                        (set_AccessCount (Int64.incr (AccessCount obj)) obj)]>
               (objects fs)) fs) disk fault) ∧
    (result = Panicked ↔ Replicas obj = []).
Proof.
  intros Hkey. unfold Get. rewrite Hkey. simpl.
  destruct (Replicas obj) as [|replica rest]; [by eexists|].
  destruct (saveMetadata _ _ _ _ !! FilePath replica); by eexists.
Qed.

(** No call changes where the store lives. *)
Lemma step_paths s op :
  basePath ((step md5_Sum json_Marshal) s op).1 = basePath s.1 ∧
  metadataPath ((step md5_Sum json_Marshal) s op).1 = metadataPath s.1.
Proof.
  destruct s as [fs disk], op as [key data contentType env|key now fault|key fault];
    simpl.
  - unfold Storage.Put. destruct (create_fault env); [done|].
    by destruct (io_Copy data (write_fault env)).
  - destruct (objects fs !! key) as [obj|] eqn:Hkey.
    + by destruct (Get_present fs disk key now fault obj Hkey) as (r & -> & _).
    + unfold Storage.Get. by rewrite Hkey.
  - unfold Storage.Delete. by destruct (objects fs !! key).
Qed.

Lemma step_rooted s op : rooted s.1 → rooted ((step md5_Sum json_Marshal) s op).1.
Proof.
  unfold rooted. destruct (step_paths s op) as [-> ->]. done.
Qed.

Lemma run_ops_paths ops :
  ∀ s, basePath ((run_ops md5_Sum json_Marshal) s ops).1 = basePath s.1 ∧
       metadataPath ((run_ops md5_Sum json_Marshal) s ops).1 = metadataPath s.1.
Proof.
  induction ops as [|op ops IH]; intros s; [done|].
  simpl. destruct (IH ((step md5_Sum json_Marshal) s op)) as [-> ->]. apply step_paths.
Qed.

Lemma step_persisted s op :
  mutates md5_Sum json_Marshal s op → index_fault op = None →
  persisted json_Marshal (step md5_Sum json_Marshal s op).1
    (step md5_Sum json_Marshal s op).2.
Proof.
  destruct s as [fs disk], op as [key data contentType env|key now fault|key fault];
    simpl.
  - intros (obj & fs1 & disk1 & Hput) Hfault. rewrite Hput. simpl.
    apply Put_Returned in Hput as (_ & _ & ->). rewrite Hfault.
    apply saveMetadata_written.
  - intros [obj Hkey] ->.
    destruct (Get_present fs disk key now None obj Hkey) as (r & -> & _).
    apply saveMetadata_written.
  - intros [obj Hkey] ->. unfold Storage.Delete. rewrite Hkey.
    apply saveMetadata_written.
Qed.

Lemma NewFileStore_persisted fs disk :
  rooted fs → (persisted json_Marshal) fs disk →
  json_Unmarshal (json_Marshal (objects fs)) = objects fs →
  NewFileStore json_Unmarshal (basePath fs) disk = fs.
Proof.
  intros Hroot Hdoc Hcodec. unfold NewFileStore, loadMetadata.
  assert (metadata_file
            (mkFileStore (basePath fs)
               (Filepath.Join (basePath fs) "metadata") ∅)
          = metadata_file fs) as ->.
  { unfold metadata_file. simpl. by rewrite Hroot. }
  rewrite Hdoc. unfold set_objects. simpl. rewrite Hcodec.
  destruct fs as [base meta index]. unfold rooted in Hroot. simpl in *.
  by rewrite Hroot.
Qed.

(** X7. Restart.  After a call that changes the index (a [Put] that returns
    a descriptor, a [Get] or a [Delete] of a present key) and whose write of
    the index document the host accepted, the document on disk encodes the
    index in memory, so a store opened with [NewFileStore] on the same root
    and disk is the store the call left, whenever decoding inverts encoding
    on that index.  (After a write that failed the document is absent, stale
    or cut short, and the restarted store is not the one in memory: lemma
    [restart_after_refused_write].) *)
Theorem restart_recovers_index fs disk op :
  rooted fs →
  (mutates md5_Sum json_Marshal) (fs, disk) op →
  index_fault op = None →
  json_Unmarshal (json_Marshal (objects ((step md5_Sum json_Marshal) (fs, disk) op).1))
  = objects ((step md5_Sum json_Marshal) (fs, disk) op).1 →
  NewFileStore json_Unmarshal (basePath fs) ((step md5_Sum json_Marshal) (fs, disk) op).2
  = ((step md5_Sum json_Marshal) (fs, disk) op).1.
Proof.
  intros Hroot Hop Hfault Hcodec.
  destruct (step_paths (fs, disk) op) as [Hbase _]. simpl in Hbase.
  rewrite <- Hbase. apply NewFileStore_persisted; [|by apply step_persisted|done].
  by apply (step_rooted (fs, disk)).
Qed.

(** After a write of the index document that the host refused, a restart
    gives the store from before the call: the read is lost. *)
Lemma restart_after_refused_write fs disk key now obj :
  rooted fs → persisted json_Marshal fs disk →
  objects fs !! key = Some obj →
  json_Unmarshal (json_Marshal (objects fs)) = objects fs →
  NewFileStore json_Unmarshal (basePath fs)
    (step md5_Sum json_Marshal (fs, disk)
       (OpGet key now (Some OpenRefused))).2
  = fs.
Proof.
  intros Hroot Hdoc Hkey Hcodec. simpl.
  destruct (Get_present fs disk key now (Some OpenRefused) obj Hkey)
    as (r & -> & _).
  simpl. by apply NewFileStore_persisted.
Qed.


(** X9. Frames.  A call on one key leaves the entries under all other keys
    as they were.  [Put] writes no file but the payload file of the call
    and the index document, [Get] none but the index document, and
    [Delete] none but the index document and the files listed in the entry
    it removes; a call that fails with "object not found", or a [Put] whose
    file cannot be created, changes nothing. *)
Theorem calls_frame fs disk key fs' disk' :
  (∀ data contentType env result,
     Put md5_Sum json_Marshal fs disk key data contentType env
     = (result, fs', disk') →
     (∀ k, k ≠ key → objects fs' !! k = objects fs !! k) ∧
     (∀ path, path ≠ payload_file md5_Sum fs key env →
              path ≠ metadata_file fs → disk' !! path = disk !! path) ∧
     (is_Some (create_fault env) → fs' = fs ∧ disk' = disk)) ∧
  (∀ now fault result,
     Get json_Marshal fs disk key now fault = (result, fs', disk') →
     (∀ k, k ≠ key → objects fs' !! k = objects fs !! k) ∧
     (∀ path, path ≠ metadata_file fs → disk' !! path = disk !! path) ∧
     (objects fs !! key = None → fs' = fs ∧ disk' = disk)) ∧
  (∀ fault failed,
     Delete json_Marshal fs disk key fault = (failed, fs', disk') →
     (∀ k, k ≠ key → objects fs' !! k = objects fs !! k) ∧
     (∀ path obj, path ≠ metadata_file fs → objects fs !! key = Some obj →
                  path ∉ FilePath <$> Replicas obj →
                  disk' !! path = disk !! path) ∧
     (objects fs !! key = None → fs' = fs ∧ disk' = disk)).
Proof.
  split; [|split].
  - intros data contentType env result. unfold Put.
    fold (payload_file md5_Sum fs key env).
    destruct (create_fault env) as [cause|] eqn:Hcreate.
    { intros [= <- <- <-]. split; [done|]. by split. }
    destruct (io_Copy data (write_fault env)) as [written|written cause];
      intros [= <- <- <-].
    + split; [intros k Hk; simpl; by rewrite lookup_insert_ne|].
      split; [|by intros [? [=]]].
      intros path Hfile Hdoc. rewrite saveMetadata_other by done.
      by disk_lookup.
    + split; [done|]. split; [|by intros [? [=]]].
      intros path Hfile Hdoc. by disk_lookup.
  - intros now fault result.
    destruct (objects fs !! key) as [obj|] eqn:Hkey.
    + destruct (Get_present fs disk key now fault obj Hkey) as (r & -> & _).
      intros [= <- <- <-].
      split; [intros k Hk; simpl; by rewrite lookup_insert_ne|].
      split; [|done]. intros path Hdoc. by apply saveMetadata_other.
    + unfold Get. rewrite Hkey. intros [= <- <- <-]. split; [done|]. by split.
  - intros fault failed. unfold Delete.
    destruct (objects fs !! key) as [obj|] eqn:Hkey; intros [= <- <- <-].
    + split; [intros k Hk; simpl; by rewrite lookup_delete_ne|].
      split; [|done]. intros path obj' Hdoc [= <-] Hfiles.
      rewrite saveMetadata_other by done. rewrite remove_replicas_lookup.
      by rewrite decide_False.
    + split; [done|]. by split.
Qed.

Lemma step_other_key s op key :
  key_of op ≠ key → objects ((step md5_Sum json_Marshal) s op).1 !! key = objects s.1 !! key.
Proof.
  destruct s as [fs disk], op as [k data contentType env|k now fault|k fault];
    simpl; intros Hne.
  - unfold Put. destruct (create_fault env); [done|].
    destruct (io_Copy data (write_fault env)); [|done].
    simpl. by rewrite lookup_insert_ne.
  - destruct (objects fs !! k) as [obj|] eqn:Hk.
    + destruct (Get_present fs disk k now fault obj Hk) as (r & -> & _).
      simpl. by rewrite lookup_insert_ne.
    + unfold Get. by rewrite Hk.
  - unfold Delete. destruct (objects fs !! k); [|done].
    simpl. by rewrite lookup_delete_ne.
Qed.

Lemma step_put_shaped s op :
  all_put_shaped s.1 → all_put_shaped ((step md5_Sum json_Marshal) s op).1.
Proof.
  intros Hshape key obj.
  destruct (decide (key_of op = key)) as [<-|Hne];
    [|rewrite step_other_key by done; intros Hk;
      destruct (step_paths s op) as [Hbase _];
      unfold put_shaped; rewrite Hbase; by apply Hshape].
  destruct s as [fs disk], op as [k data contentType env|k now fault|k fault]; simpl in *.
  - unfold Put. destruct (create_fault env); [by apply Hshape|].
    destruct (io_Copy data (write_fault env)); [|by apply Hshape].
    simpl. rewrite lookup_insert_eq. by intros [= <-].
  - destruct (objects fs !! k) as [obj0|] eqn:Hk.
    + destruct (Get_present fs disk k now fault obj0 Hk) as (r & -> & _).
      simpl. rewrite lookup_insert_eq. intros [= <-].
      by apply (Hshape k obj0).
    + unfold Get. rewrite Hk. simpl. by rewrite Hk.
  - unfold Delete. destruct (objects fs !! k) eqn:Hk; simpl.
    + by rewrite lookup_delete_eq.
    + by rewrite Hk.
Qed.

Lemma run_ops_put_shaped ops :
  ∀ s, all_put_shaped s.1 → all_put_shaped ((run_ops md5_Sum json_Marshal) s ops).1.
Proof.
  induction ops as [|op ops IH]; intros s Hshape; [done|].
  simpl. by apply IH, step_put_shaped.
Qed.

(** X10. Every store reached from an empty storage root by calls of [Put],
    [Get] and [Delete], whatever they return, keeps each entry in the shape
    [Put] gave it: under its own key, in tier "hot", without metadata, with
    exactly one replica, on "node-1", active, whose file is named by the
    object ID under the root.  On such a store [Get] never panics. *)
Theorem reachable_store_shape (base : string) disk0 ops :
  disk0 !! Filepath.Join (Filepath.Join base "metadata") "objects.json" = None →
  let s := (run_ops md5_Sum json_Marshal) ((NewFileStore json_Unmarshal) base disk0, disk0) ops in
  basePath s.1 = base ∧
  rooted s.1 ∧
  all_put_shaped s.1 ∧
  ∀ key now fault, ((Get json_Marshal) s.1 s.2 key now fault).1.1 ≠ Panicked.
Proof.
  intros Hempty s.
  assert ((NewFileStore json_Unmarshal) base disk0
          = mkFileStore base (Filepath.Join base "metadata") ∅) as Hnew.
  { unfold NewFileStore, loadMetadata, metadata_file. simpl. by rewrite Hempty. }
  destruct (run_ops_paths ops ((NewFileStore json_Unmarshal) base disk0, disk0))
    as [Hbase Hmeta]. fold s in Hbase, Hmeta. rewrite Hnew in Hbase, Hmeta.
  simpl in Hbase, Hmeta.
  assert (all_put_shaped s.1) as Hshape.
  { apply run_ops_put_shaped. rewrite Hnew. intros key obj. simpl.
    by rewrite lookup_empty. }
  split; [done|]. split; [unfold rooted; by rewrite Hbase, Hmeta|].
  split; [done|].
  intros key now fault. destruct (objects s.1 !! key) as [obj|] eqn:Hkey.
  - destruct (Get_present s.1 s.2 key now fault obj Hkey)
      as (r & -> & Hpanic).
    simpl. intros Hr. apply Hpanic in Hr.
    destruct (Hshape key obj Hkey) as (_ & _ & _ & Hfiles).
    by rewrite Hfiles in Hr.
  - unfold Get. by rewrite Hkey.
Qed.

Lemma get_counted (obj : StorageObject) (c : Z) (t : Time) :
  set_LastAccess t (set_AccessCount c obj)
  = mkStorageObject (ID obj) (Key obj) (Size obj) (ContentType obj)
      (Checksum obj) (CreatedAt obj) (UpdatedAt obj) c t (Metadata obj)
      (StorageTier obj) (Replicas obj).
Proof. reflexivity. Qed.

(** X11. The AccessCount of an entry counts the reads: through any calls
    among which none is a [Put] or a [Delete] of the key, the entry keeps all
    its fields but AccessCount and LastAccess, and AccessCount has grown by
    the number of calls of [Get] on the key, calls on other keys not
    counting (as long as the counter stays below the largest int64). *)
Theorem AccessCount_counts_reads fs disk key obj ops :
  objects fs !! key = Some obj →
  Forall (λ op, key_of op = key → is_get op) ops →
  Int64.min_int ≤ AccessCount obj →
  AccessCount obj + Z.of_nat (length (gets_of key ops)) ≤ Int64.max_int →
  ∃ last_access,
    objects ((run_ops md5_Sum json_Marshal) (fs, disk) ops).1 !! key
    = Some (mkStorageObject (ID obj) (Key obj) (Size obj) (ContentType obj)
              (Checksum obj) (CreatedAt obj) (UpdatedAt obj)
              (AccessCount obj + Z.of_nat (length (gets_of key ops)))
              last_access (Metadata obj) (StorageTier obj) (Replicas obj)).
Proof.
  intros Hkey Hops. revert fs disk obj Hkey.
  induction Hops as [|op ops Hop _ IH]; intros fs disk obj Hkey Hmin Hmax.
  - exists (LastAccess obj). simpl. rewrite Hkey. f_equal.
    destruct obj; simpl. f_equal. lia.
  - simpl. unfold gets_of in *. rewrite filter_cons in Hmax. rewrite filter_cons.
    destruct (decide (key_of op = key)) as [Heq|Hne].
    + specialize (Hop Heq). rewrite decide_True in Hmax by done.
      rewrite decide_True by done. simpl in Hmax.
      destruct op as [| k now fault |]; simpl in Hop, Heq; try done. subst k.
      destruct (Get_present fs disk key now fault obj Hkey) as (r & Hget & _).
      simpl. rewrite Hget.
      assert (Int64.incr (AccessCount obj) = AccessCount obj + 1) as Hincr.
      { apply int64_wrap_in_range. unfold Int64.in_range. lia. }
      rewrite Hincr.
      set (obj1 := set_LastAccess now
                     (set_AccessCount (AccessCount obj + 1) obj)).
      set (fs1 := set_objects (<[key := obj1]> (objects fs)) fs).
      destruct (IH fs1 (saveMetadata json_Marshal fs1 disk fault) obj1)
        as [t Ht]; [by simpl; rewrite lookup_insert_eq|simpl; lia..|].
      exists t. rewrite Ht. simpl. do 2 f_equal. lia.
    + rewrite decide_False in Hmax by (by intros [_ ?]).
      rewrite decide_False by (by intros [_ ?]).
      pose proof (step_other_key (fs, disk) op key Hne) as Hsame.
      destruct ((step md5_Sum json_Marshal) (fs, disk) op) as [fs' disk'] eqn:Hstep.
      simpl in Hsame. rewrite Hkey in Hsame.
      by apply IH.
Qed.

End StoreHistoryProperties.

(** ** Store: histories on a fresh storage root *)

Section StoreHistoryRuns.
Import Models Storage StoreHistory StoreExamples StoreHistoryExamples.

Lemma stored_rooted : rooted stored.
Proof. reflexivity. Qed.

(** X7, at a read of "report.csv" on a host that accepts the write: the
    restarted store has the entry with the read counted. *)
Lemma restart_recovers_index_witness :
  NewFileStore sexp_unmarshal "data"
    (step plain_sum sexp_marshal (stored, stored_disk)
       (OpGet "report.csv" 20 None)).2
  = (step plain_sum sexp_marshal (stored, stored_disk)
       (OpGet "report.csv" 20 None)).1 ∧
  ∃ obj',
    objects (step plain_sum sexp_marshal (stored, stored_disk)
               (OpGet "report.csv" 20 None)).1 !! "report.csv" = Some obj' ∧
    AccessCount obj' = 1.
Proof.
  split; [|eexists; split; reflexivity].
  apply (restart_recovers_index plain_sum sexp_marshal sexp_unmarshal
           stored stored_disk (OpGet "report.csv" 20 None)).
  - apply stored_rooted.
  - simpl. by eexists.
  - reflexivity.
  - vm_compute. reflexivity.
Defined.


(** X9, at a read of "report.csv": the payload file is as it was. *)
Lemma calls_frame_witness :
  (Get plain_marshal stored stored_disk "report.csv" 21 None).2
    !! payload_file plain_sum fresh "report.csv" calm
  = stored_disk !! payload_file plain_sum fresh "report.csv" calm.
Proof.
  destruct (Get plain_marshal stored stored_disk "report.csv" 21 None)
    as [[result fs'] disk'] eqn:Hcall.
  destruct (calls_frame plain_sum plain_marshal stored stored_disk
              "report.csv" fs' disk') as (_ & Hget & _).
  destruct (Hget 21 None result Hcall) as (_ & Hdisk & _).
  apply Hdisk. vm_compute. discriminate.
Defined.

(** X10, at the store after one upload. *)
Lemma reachable_store_shape_witness :
  all_put_shaped stored ∧
  ∀ key now fault,
    (Get plain_marshal stored stored_disk key now fault).1.1 ≠ Panicked.
Proof.
  destruct (reachable_store_shape plain_sum plain_marshal plain_unmarshal
              "data" ∅
              [OpPut "report.csv" payload "text/csv" calm])
    as (_ & _ & Hshape & Hget); [done|].
  by split.
Defined.

(** X11, at two reads of "report.csv" and one of another key. *)
Lemma AccessCount_counts_reads_witness :
  ∃ obj',
    objects (run_ops plain_sum plain_marshal (stored, stored_disk)
               three_reads).1 !! "report.csv" = Some obj' ∧
    AccessCount obj' = 2.
Proof.
  destruct after_put_Returned as (obj & _ & Hkey & _ & _ & Hcount & _).
  destruct (AccessCount_counts_reads plain_sum plain_marshal stored
              stored_disk "report.csv" obj three_reads Hkey)
    as [t Ht].
  - repeat constructor; simpl; done.
  - rewrite Hcount. unfold Int64.min_int. lia.
  - rewrite Hcount. unfold Int64.max_int. simpl. lia.
  - eexists. split; [exact Ht|]. simpl. rewrite Hcount. reflexivity.
Defined.

End StoreHistoryRuns.

(** ** Membership: keys and IDs *)

Section KeyedTable.
Import Cluster ClusterStats.
Implicit Types (cm : ClusterManager) (node : Node) (order : list string).

Lemma handle_keyed cm e : keyed_by_ID cm → keyed_by_ID (handle cm e).
Proof.
  intros Hkeyed k node. destruct e as [new now|now pingNode order]; simpl.
  - rewrite lookup_insert. case_decide as Hk; [|by apply Hkeyed].
    by intros [= <-].
  - intros Hk.
    pose proof (sweep_shape (ID (currentNode cm)) now pingNode order
                  (nodes cm) k) as Hshape.
    rewrite Hk in Hshape. inversion Hshape as [old ? Hid Hold|]; subst.
    destruct Hid as [-> _]. by apply Hkeyed.
Qed.

Lemma run_keyed events : ∀ cm, keyed_by_ID cm → keyed_by_ID (run cm events).
Proof.
  induction events as [|e events IH]; intros cm Hkeyed; [done|].
  simpl. by apply IH, handle_keyed.
Qed.

Lemma healthy_IDs_NoDup cm order :
  keyed_by_ID cm → NoDup order →
  NoDup (ID <$> GetHealthyNodes cm order).
Proof.
  intros Hkeyed Hnodup. unfold GetHealthyNodes, range_values.
  induction Hnodup as [|k order Hfresh Hnodup IH]; simpl; [constructor|].
  destruct (nodes cm !! k) as [node|] eqn:Hk; simpl; [|done].
  rewrite filter_cons. case_decide; [|done].
  rewrite fmap_cons. apply NoDup_cons. split; [|done].
  rewrite (Hkeyed _ _ Hk). intros Hin.
  apply list_elem_of_fmap in Hin as (other & Hid & Hin).
  apply list_elem_of_filter in Hin as [_ Hin].
  apply list_elem_of_omap in Hin as (k' & Hin & Hk').
  apply Hkeyed in Hk'. congruence.
Qed.

(** X12. In every table reached from the constructor by registrations and
    sweeps each node is stored under its own ID.  So the nodes
    [GetHealthyNodes] returns, and with them the targets
    [SelectNodesForReplication] selects, have pairwise different IDs: no
    node is selected twice. *)
Theorem targets_are_distinct nodeID nodeAddress t0 events order (count : Z) :
  NoDup order →
  let cm := run (NewClusterManager nodeID nodeAddress t0) events in
  keyed_by_ID cm ∧
  NoDup (ID <$> GetHealthyNodes cm order) ∧
  ∀ selected, SelectNodesForReplication cm count order = Some selected →
              NoDup (ID <$> selected).
Proof.
  intros Hnodup cm.
  assert (keyed_by_ID cm) as Hkeyed.
  { apply run_keyed. intros k node. simpl.
    rewrite lookup_insert. case_decide; [|by rewrite lookup_empty].
    by intros [= <-]. }
  pose proof (healthy_IDs_NoDup cm order Hkeyed Hnodup) as Hids.
  split; [done|]. split; [done|].
  intros selected Hsel.
  destruct (decide (count < 0)) as [Hneg|Hpos].
  - by rewrite SelectNodesForReplication_negative in Hsel.
  - rewrite SelectNodesForReplication_take in Hsel by lia.
    injection Hsel as <-. rewrite fmap_take.
    eapply sublist_NoDup; [exact Hids|apply sublist_take].
Qed.

Lemma targets_are_distinct_witness :
  NoDup (ID <$> GetHealthyNodes
                  (run (NewClusterManager "node-1" "10.0.0.1:8080" 0)
                       [Register Examples.peer 1;
                        Sweep 30 (λ _, true) ["node-1"; "node-2"]])
                  ["node-2"; "node-1"]).
Proof.
  destruct (targets_are_distinct "node-1" "10.0.0.1:8080" 0
              [Register Examples.peer 1;
               Sweep 30 (λ _, true) ["node-1"; "node-2"]]
              ["node-2"; "node-1"] 3) as (_ & Hids & _); [|exact Hids].
  apply NoDup_cons. split; [|apply NoDup_singleton].
  intros Hin. apply list_elem_of_singleton in Hin. discriminate.
Defined.

End KeyedTable.

(** ** Replication: tasks, their records and the task map *)

Section ReplicationProperties.
Import Models Replication ReplicationFrames.
Implicit Types (rm : ReplicationManager) (data : Reader) (env : Env).
Implicit Types (t : ReplicationTask) (o : StorageObject).

(** X13. When the object exists, the replication factor is at least 1 and
    some node is healthy, [ReplicateObject] returns without error and the
    status of the object is a new task: "pending", created at the time of
    the call, with the current node as source and, as targets, the IDs of
    the first healthy nodes, at least one and at most the replication
    factor.  One goroutine is started for it; the statuses of other objects,
    the table and the objects are as before. *)
Theorem ReplicateObject_records_task rm (obj : nat) o data order now :
  object_heap rm !! obj = Some o →
  1 ≤ replicationFactor rm →
  Cluster.GetHealthyNodes (clusterManager rm) order ≠ [] →
  ∃ rm1 t,
    ReplicateObject rm obj data order now = Some (None, rm1) ∧
    GetReplicationStatus rm1 (ID o) = Some t ∧
    t = mkReplicationTask (ID o) (Key o)
          (Cluster.ID (Cluster.currentNode (clusterManager rm)))
          (Cluster.ID <$> take (Z.to_nat (replicationFactor rm))
                            (Cluster.GetHealthyNodes (clusterManager rm) order))
          "pending" now None "" ∧
    1 ≤ Z.of_nat (length (TargetNodes t)) ≤ replicationFactor rm ∧
    goroutines rm1
    = goroutines rm ++ [mkGoroutine (length (task_heap rm)) obj data] ∧
    (∀ id t', id ≠ ID o → GetReplicationStatus rm id = Some t' →
              GetReplicationStatus rm1 id = Some t') ∧
    clusterManager rm1 = clusterManager rm ∧
    object_heap rm1 = object_heap rm.
Proof.
  intros Hobj Hfactor Hhealthy.
  assert (ReplicateObject rm obj data order now
          = Some (None,
                  set_goroutines
                    (goroutines rm ++ [mkGoroutine (length (task_heap rm)) obj data])
                    (Store (ID o) (length (task_heap rm))
                       (set_task_heap
                          (task_heap rm ++
                             [mkReplicationTask (ID o) (Key o)
                                (Cluster.ID
                                   (Cluster.GetCurrentNode (clusterManager rm)))
                                (Cluster.ID <$>
                                   take (Z.to_nat (replicationFactor rm))
                                     (Cluster.GetHealthyNodes
                                        (clusterManager rm) order))
                                "pending" now None ""]) rm)))) as Hcall.
  { unfold ReplicateObject.
    rewrite SelectNodesForReplication_take by lia. simpl.
    destruct (Cluster.GetHealthyNodes (clusterManager rm) order)
      as [|node l] eqn:Hl; [done|].
    replace (Z.to_nat (replicationFactor rm))
      with (S (Z.to_nat (replicationFactor rm - 1))) by lia.
    simpl. by rewrite Hobj. }
  eexists _, _. split; [exact Hcall|].
  split; [|split; [reflexivity|]].
  { unfold GetReplicationStatus. simpl. rewrite lookup_insert_eq. simpl.
    by apply list_lookup_middle. }
  split.
  { simpl. rewrite length_fmap, length_take.
    destruct (Cluster.GetHealthyNodes (clusterManager rm) order); [done|].
    simpl. lia. }
  split; [done|]. split; [|done].
  intros id t' Hid. unfold GetReplicationStatus. simpl.
  rewrite lookup_insert_ne by done.
  destruct (pendingReplications rm !! id) as [p|]; simpl; [|done].
  intros Hp. by apply lookup_app_l_Some.
Qed.

Lemma ReplicateObject_records_task_witness :
  ∃ rm1 t,
    ReplicateObject FanOutExample.trio 0 ReplicationExamples.payload
      FanOutExample.order3 5 = Some (None, rm1) ∧
    GetReplicationStatus rm1 (ID ReplicationExamples.report) = Some t ∧
    TargetNodes t = ["node-1"; "node-2"; "node-3"].
Proof.
  destruct (ReplicateObject_records_task FanOutExample.trio 0
              ReplicationExamples.report ReplicationExamples.payload
              FanOutExample.order3 5)
    as (rm1 & t & Hcall & Hstatus & Ht & _); [done | done | done |].
  exists rm1, t. split; [done|]. split; [done|]. by rewrite Ht.
Defined.

(** What a run of [executeReplication] writes: the record of its task, and
    the entry of the task map for the object of the task. *)
Lemma executeReplication_frame rm (task obj : nat) data env rm' :
  executeReplication rm task obj data env = Some rm' →
  ∃ t f,
    task_heap rm !! task = Some t ∧
    task_heap rm' = alter f task (task_heap rm) ∧
    same_task t (f t) ∧
    pendingReplications rm'
    = <[ObjectID t := task]> (pendingReplications rm) ∧
    clusterManager rm' = clusterManager rm ∧
    replicationFactor rm' = replicationFactor rm ∧
    object_heap rm' = object_heap rm ∧
    goroutines rm' = goroutines rm.
Proof.
  unfold executeReplication.
  destruct (task_heap rm !! task) as [t|] eqn:Htask; simpl; [|done].
  destruct (failure data) as [cause|].
  - intros [= <-]. exists t. eexists. split; [done|].
    unfold markTaskFailed, update_task. simpl.
    rewrite list_alter_alter_eq. split; [reflexivity|]. done.
  - destruct (object_heap rm !! obj) as [o|]; simpl; [|done].
    intros [= <-]. exists t.
    destruct (decide (0 < _)%nat);
      unfold markTaskFailed, update_task; simpl;
      rewrite list_alter_alter_eq;
      (eexists; split; [done|]; split; [reflexivity|]);
      simpl; by rewrite insert_insert_eq.
Qed.

(** X14. A run of [executeReplication] changes nothing but the record of
    its own task and the entry of the task map for that task's object:
    every other task record, every other map entry, the membership table,
    the replication factor, the objects and the list of started goroutines
    are as before, and in the record of the task the object ID and key, the
    source, the targets and the time of creation are unchanged. *)
Theorem executeReplication_writes_own_task rm (task obj : nat) data env rm' :
  executeReplication rm task obj data env = Some rm' →
  ∃ t t',
    task_heap rm !! task = Some t ∧
    task_heap rm' !! task = Some t' ∧
    same_task t t' ∧
    (∀ other, other ≠ task →
              task_heap rm' !! other = task_heap rm !! other) ∧
    (∀ id, id ≠ ObjectID t →
           pendingReplications rm' !! id = pendingReplications rm !! id) ∧
    pendingReplications rm' !! ObjectID t = Some task ∧
    clusterManager rm' = clusterManager rm ∧
    replicationFactor rm' = replicationFactor rm ∧
    object_heap rm' = object_heap rm ∧
    goroutines rm' = goroutines rm.
Proof.
  intros Hrun.
  destruct (executeReplication_frame _ _ _ _ _ _ Hrun)
    as (t & f & Htask & Hheap & Hsame & Hmap & Hrest).
  exists t, (f t). split; [done|].
  split; [by rewrite Hheap, list_lookup_alter_eq, Htask|].
  split; [done|]. split.
  { intros other Hother. rewrite Hheap. by apply list_lookup_alter_ne. }
  split; [intros id Hid; rewrite Hmap; by apply lookup_insert_ne|].
  split; [rewrite Hmap; apply lookup_insert_eq|done].
Qed.

Lemma executeReplication_writes_own_task_witness :
  ∃ rm' t',
    executeReplication FanOutExample.trio_started 0 0
      ReplicationExamples.payload FanOutExample.two_of_three = Some rm' ∧
    task_heap rm' !! 0%nat = Some t' ∧
    same_task FanOutExample.trio_task t'.
Proof.
  destruct two_of_three_completed as (_ & rm' & Hrun & _).
  destruct (executeReplication_writes_own_task _ _ _ _ _ _ Hrun)
    as (t & t' & Ht & Ht' & Hsame & _).
  injection Ht as <-. by exists rm', t'.
Defined.

(** X15. A task is "completed" only if a peer acknowledged the payload:
    the reader was buffered without error, and for some target of the task
    a node with that ID was among the healthy nodes at the time of the
    transfer and answered 200 to the PUT request for the object's key at
    its address, whose body is the buffered payload and whose headers carry
    the content type, object ID and checksum of the descriptor and the ID
    of the current node. *)
Theorem completed_means_acknowledged rm (task obj : nat) data env t o rm' t' :
  task_heap rm !! task = Some t →
  object_heap rm !! obj = Some o →
  executeReplication rm task obj data env = Some rm' →
  task_heap rm' !! task = Some t' →
  Status t' = "completed" →
  failure data = None ∧
  ∃ nID target,
    nID ∈ TargetNodes t ∧
    target ∈ Cluster.GetHealthyNodes (clusterManager rm) (healthy_order env nID) ∧
    Cluster.ID target = nID ∧
    client_Do env
      (push_request (Cluster.ID (Cluster.currentNode (clusterManager rm)))
         (Cluster.Address target) o (content data))
    = Some StatusOK.
Proof.
  intros Htask Hobj Hrun Htask' Hdone.
  destruct (executeReplication_run rm task obj data env t o Htask Hobj)
    as (rm2 & t2 & Hrun2 & _ & _ & Ht2 & _ & _ & Hend).
  rewrite Hrun in Hrun2. injection Hrun2 as <-.
  rewrite Htask' in Ht2. injection Ht2 as <-.
  destruct (failure data) as [cause|].
  { destruct Hend as [Hfailed _]. by rewrite Hfailed in Hdone. }
  split; [done|]. destruct Hend as [Hiff _].
  apply Hiff in Hdone as (nID & Hin & Hok). exists nID.
  unfold replicateToNode in Hok.
  destruct (List.find _ _) as [target|] eqn:Hfind; [|done].
  apply List.find_some in Hfind as [Hmem Hid].
  apply bool_decide_eq_true in Hid.
  exists target. split; [done|]. split; [by apply list_elem_of_In|].
  split; [done|].
  destruct (url_ok env _); [|done].
  unfold push_request, Cluster.GetCurrentNode in *.
  destruct (client_Do env _) as [code|]; [|done].
  apply bool_decide_eq_true in Hok. by subst.
Qed.

Lemma completed_means_acknowledged_witness :
  ∃ nID target,
    nID ∈ ["node-1"; "node-2"; "node-3"] ∧
    Cluster.ID target = nID ∧
    client_Do FanOutExample.two_of_three
      (push_request "node-1" (Cluster.Address target)
         ReplicationExamples.report (content ReplicationExamples.payload))
    = Some StatusOK.
Proof.
  destruct two_of_three_completed as (_ & rm' & Hrun & Hstatus).
  destruct (completed_means_acknowledged FanOutExample.trio_started 0 0
              ReplicationExamples.payload FanOutExample.two_of_three
              FanOutExample.trio_task ReplicationExamples.report rm'
              (mkReplicationTask "5d41402abc4b2a76b9719d911017c592"
                 "report.csv" "node-1" ["node-1"; "node-2"; "node-3"]
                 "completed" 5 (Some 20) ""))
    as (_ & nID & target & Hin & _ & Hid & Hack); [done|done|done| |done|].
  - unfold GetReplicationStatus in Hstatus.
    destruct (executeReplication_frame _ _ _ _ _ _ Hrun)
      as (t & f & Ht & _ & _ & Hmap & _).
    injection Ht as <-. rewrite Hmap in Hstatus. simpl in Hstatus.
    by rewrite lookup_insert_eq in Hstatus.
  - by exists nID, target.
Defined.

(** X16. One entry per object: a second [ReplicateObject] for an object
    makes its new pending task the status of the object, but the run of the
    first task, when it ends after that, stores its own record again, so
    that the status reported for the object is then the outcome of the first
    task, while the record of the second task, still pending, is no longer
    reached through the task map. *)
Theorem older_run_hides_newer_task rm (obj : nat) o data1 data2 order1 order2
    now1 now2 env rm1 rm2 :
  object_heap rm !! obj = Some o →
  ReplicateObject rm obj data1 order1 now1 = Some (None, rm1) →
  ReplicateObject rm1 obj data2 order2 now2 = Some (None, rm2) →
  ∃ t2 rm3 t1,
    GetReplicationStatus rm2 (ID o) = Some t2 ∧
    Status t2 = "pending" ∧ CreatedAt t2 = now2 ∧
    executeReplication rm2 (length (task_heap rm)) obj data1 env = Some rm3 ∧
    GetReplicationStatus rm3 (ID o) = Some t1 ∧
    CreatedAt t1 = now1 ∧
    (Status t1 = "completed" ∨ Status t1 = "failed") ∧
    task_heap rm3 !! S (length (task_heap rm)) = Some t2.
Proof.
  intros Hobj Hfirst Hsecond.
  destruct (ReplicateObject_started _ _ _ _ _ _ Hfirst)
    as (o1 & targets1 & Hobj1 & _ & _ & Hheap1 & _ & Hmap1 & Htasks1 & _).
  rewrite Hobj in Hobj1. injection Hobj1 as <-.
  destruct (ReplicateObject_started _ _ _ _ _ _ Hsecond)
    as (o2 & targets2 & Hobj2 & _ & _ & Hheap2 & _ & Hmap2 & Htasks2 & _).
  rewrite Hheap1, Hobj in Hobj2. injection Hobj2 as <-.
  set (task1 := mkReplicationTask _ _ _ _ _ now1 _ _) in Htasks1.
  set (task2 := mkReplicationTask _ _ _ _ _ now2 _ _) in Htasks2.
  assert (length (task_heap rm1) = S (length (task_heap rm))) as Hlen.
  { rewrite Htasks1, length_app. simpl. lia. }
  assert (task_heap rm2 !! length (task_heap rm) = Some task1) as Hp1.
  { rewrite Htasks2, Htasks1, <- app_assoc. by apply list_lookup_middle. }
  assert (task_heap rm2 !! S (length (task_heap rm)) = Some task2) as Hp2.
  { rewrite Htasks2, <- Hlen. by apply list_lookup_middle. }
  assert (object_heap rm2 !! obj = Some o) as Hobj2
    by (by rewrite Hheap2, Hheap1).
  destruct (executeReplication_run rm2 _ obj data1 env task1 o Hp1 Hobj2)
    as (rm3 & t1 & Hrun & _ & _ & Ht1 & Hstatus & _ & Hend).
  destruct (executeReplication_frame _ _ _ _ _ _ Hrun)
    as (t & f & Ht & Hheap3 & Hsame & _).
  rewrite Hp1 in Ht. injection Ht as <-.
  exists task2, rm3, t1.
  split.
  { unfold GetReplicationStatus. rewrite Hmap2, lookup_insert_eq. simpl.
    by rewrite Hlen. }
  split; [done|]. split; [done|]. split; [done|]. split; [done|].
  split.
  { rewrite Hheap3, list_lookup_alter_eq, Hp1 in Ht1. injection Ht1 as <-.
    by destruct Hsame as (_ & _ & _ & _ & ->). }
  split.
  { destruct (failure data1) as [cause|].
    - right. by destruct Hend.
    - destruct Hend as [_ Hfailed].
      destruct (decide (Status t1 = "completed")) as [|Hne]; [by left|].
      right. by destruct (Hfailed Hne). }
  rewrite Hheap3. by rewrite list_lookup_alter_ne by lia.
Qed.

Lemma older_run_hides_newer_task_witness :
  ∃ rm1 rm2 rm3 t1,
    ReplicateObject FanOutExample.trio 0 ReplicationExamples.payload
      FanOutExample.order3 5 = Some (None, rm1) ∧
    ReplicateObject rm1 0 ReplicationExamples.payload
      FanOutExample.order3 7 = Some (None, rm2) ∧
    executeReplication rm2 0 0 ReplicationExamples.payload
      FanOutExample.two_of_three = Some rm3 ∧
    GetReplicationStatus rm3 (ID ReplicationExamples.report) = Some t1 ∧
    CreatedAt t1 = 5.
Proof.
  pose proof trio_ReplicateObject as Hfirst.
  set (rm1 := FanOutExample.trio_started) in *.
  assert (∃ rm2, ReplicateObject rm1 0 ReplicationExamples.payload
                   FanOutExample.order3 7 = Some (None, rm2)) as [rm2 Hsecond]
    by (by eexists).
  destruct (older_run_hides_newer_task FanOutExample.trio 0
              ReplicationExamples.report ReplicationExamples.payload
              ReplicationExamples.payload FanOutExample.order3
              FanOutExample.order3 5 7 FanOutExample.two_of_three rm1 rm2)
    as (t2 & rm3 & t1 & _ & _ & _ & Hrun & Hstatus & Hcreated & _);
    [done|done|done|].
  by exists rm1, rm2, rm3, t1.
Defined.

(** X17. [GetAllReplicationTasks] lists the tasks that
    [GetReplicationStatus] reports: when the loop visits every key of the
    task map, a task is in the list exactly when it is the status of some
    object ID. *)
Theorem GetAllReplicationTasks_statuses rm order t :
  range_order (pendingReplications rm) order →
  t ∈ GetAllReplicationTasks rm order ↔
  ∃ objectID, GetReplicationStatus rm objectID = Some t.
Proof.
  intros Horder. unfold GetAllReplicationTasks, GetReplicationStatus.
  rewrite list_elem_of_omap. split.
  - intros (task & Hin & Ht).
    apply elem_of_range_values in Hin as (objectID & _ & Hid).
    exists objectID. by rewrite Hid.
  - intros (objectID & Hstatus).
    destruct (pendingReplications rm !! objectID) as [task|] eqn:Hid; [|done].
    exists task. split; [|done]. by eapply range_values_complete.
Qed.

Lemma GetAllReplicationTasks_statuses_witness :
  FanOutExample.trio_task
    ∈ GetAllReplicationTasks FanOutExample.trio_started
        ["5d41402abc4b2a76b9719d911017c592"].
Proof.
  apply GetAllReplicationTasks_statuses.
  - apply range_order_singleton.
  - by exists "5d41402abc4b2a76b9719d911017c592".
Defined.

End ReplicationProperties.

(** ** API: the object routes *)

Section ApiProperties.
Import Models Storage Api.

Variable md5_Sum : list Byte.byte → list Byte.byte.
Variable json_Marshal : gmap string StorageObject → list Byte.byte.
Variable json_Encode_object : StorageObject → list Byte.byte.

Implicit Types (api : APIServer) (disk : Disk) (r : HttpRequest).
Implicit Types (obj : StorageObject) (env : PutEnv).

Lemma Get_after_Put fs disk key data contentType env now fault obj fs1
    disk1 :
  rooted fs →
  Put md5_Sum json_Marshal fs disk key data contentType env
  = (Returned obj, fs1, disk1) →
  ∃ fs2 disk2,
    Get json_Marshal fs1 disk1 key now fault
    = (Returned (content data,
                 set_LastAccess now (set_AccessCount (Int64.incr 0) obj)),
       fs2, disk2).
Proof.
  intros Hroot Hput.
  pose proof (payload_file_not_metadata md5_Sum fs key env Hroot) as Hpath.
  apply Put_Returned in Hput as (-> & -> & ->).
  unfold Get. simpl. rewrite lookup_insert_eq. simpl.
  rewrite !saveMetadata_other by exact Hpath.
  rewrite lookup_insert_eq. by eexists _, _.
Qed.

(** X18. Upload, then download.  When the host does not fail the creation
    and the writing of the payload file nor the reading of the body, a PUT
    of a body under a key is answered 200 with the encoded descriptor, and a
    GET of the key is then answered 200 with exactly the uploaded bytes,
    with the content type of the upload ("application/octet-stream" if it
    named none), the number of uploaded bytes in decimal as Content-Length
    and the hexadecimal MD5 digest of the bytes as ETag; this is so whether
    or not the index document could be written in either call. *)
Theorem upload_then_download api disk r r' env now1 now_get fault now2 :
  rooted (store api) →
  create_fault env = None → write_fault env = None →
  failure (Body r) = None →
  vars_key r' = vars_key r →
  ∃ obj api1 disk1 header api2 disk2,
    putObject md5_Sum json_Marshal json_Encode_object api disk r env now1
    = (Some (mkResponse StatusOK json_header (json_Encode_object obj)),
       api1, disk1) ∧
    getObject json_Marshal api1 disk1 r' now_get fault now2
    = (Some (mkResponse StatusOK header (content (Body r))), api2, disk2) ∧
    header !! "Content-Type" = Some (stored_type r) ∧
    header !! "Content-Length"
    = Some (FormatInt (Z.of_nat (length (content (Body r))))) ∧
    header !! "ETag" = Some (Fmt.Sprintf_x (md5_Sum (content (Body r)))).
Proof.
  intros Hroot Hcreate Hwrite Hread Hkey.
  destruct (Put_succeeds md5_Sum json_Marshal (store api) disk (vars_key r)
              (Body r) (stored_type r) env Hcreate Hwrite Hread)
    as (obj & fs1 & disk1 & Hput).
  destruct (Get_after_Put _ _ _ _ _ _ now_get fault _ _ _ Hroot Hput)
    as (fs2 & disk2 & Hget).
  pose proof Hput as Hobj. apply Put_Returned in Hobj as (Hobj & _ & _).
  unfold putObject. fold (stored_type r). rewrite Hput.
  eexists _, _, _, _, _, _. split; [reflexivity|].
  unfold getObject. simpl. rewrite Hkey, Hget. split; [reflexivity|].
  rewrite Hobj. simpl. done.
Qed.

(** X19. A GET of a key whose payload file is missing is answered 404 with
    the message of the failed open, although the key is in the index; the
    read is still counted in the entry in memory (AccessCount incremented),
    but no access pattern is recorded for it.  On disk no file but the
    index document is touched, and the document is the encoding of the
    index with the read counted if the host accepted the write; if the host
    refused to open it the disk is as before. *)
Theorem download_of_missing_file api disk r now_get fault now obj replica
    rest :
  objects (store api) !! vars_key r = Some obj →
  Replicas obj = replica :: rest →
  FilePath replica ≠ metadata_file (store api) →
  disk !! FilePath replica = None →
  ∃ api' disk' obj',
    getObject json_Marshal api disk r now_get fault now
    = (Some (http_Error
               ("failed to open file: open " +:+ FilePath replica
                  +:+ ": no such file or directory") StatusNotFound),
       api', disk') ∧
    patterns api' = patterns api ∧
    objects (store api') !! vars_key r = Some obj' ∧
    AccessCount obj' = Int64.incr (AccessCount obj) ∧
    (∀ path, path ≠ metadata_file (store api') →
       disk' !! path = disk !! path) ∧
    (fault = None →
       disk' !! metadata_file (store api')
       = Some (json_Marshal (objects (store api')))) ∧
    (fault = Some OpenRefused → disk' = disk).
Proof.
  intros Hkey Hfiles Hdoc Hmissing.
  unfold getObject, Get. rewrite Hkey. simpl. rewrite Hfiles.
  rewrite saveMetadata_other by exact Hdoc. rewrite Hmissing.
  eexists _, _, _. split; [reflexivity|]. simpl.
  split; [done|]. split; [apply lookup_insert_eq|]. split; [done|].
  split; [intros path Hpath; by apply saveMetadata_other|].
  split; [intros ->; apply saveMetadata_written|]. by intros ->.
Qed.

(** X20. The tracker only grows, by one pattern for each upload or download
    that is answered 200 and by none for any other call: a call answered
    with an error, a call that panics and a delete leave it as it is.  The
    pattern of an upload is a "write", that of a download a "read", with the
    user the request names.  The status of an answer to a call is 200, 204,
    404 or 500. *)
Theorem serve_tracks api disk c :
  ∃ response api' disk',
    serve md5_Sum json_Marshal json_Encode_object api disk c
    = (response, api', disk') ∧
    (tracked c response = false → patterns api' = patterns api) ∧
    (tracked c response = true →
       ∃ p, patterns api' = patterns api ++ [p] ∧
            match c with
            | CallPut r _ now =>
                Operation p = "write" ∧ AccessTime p = now ∧
                UserID p = Header_Get r "User-ID"
            | CallGet r _ _ now =>
                Operation p = "read" ∧ AccessTime p = now ∧
                UserID p = Header_Get r "User-ID"
            | CallDelete _ _ => False
            end) ∧
    (∀ resp, response = Some resp →
       StatusCode resp ∈ [StatusOK; StatusNoContent; StatusNotFound;
                          StatusInternalServerError]).
Proof.
  destruct c as [r env now|r now_get fault now|r fault]; simpl.
  - unfold putObject.
    destruct (Put _ _ _ _ _ _ _ _) as [[[obj|e|] fs] disk'];
      eexists _, _, _; (split; [reflexivity|]); simpl.
    + split; [done|]. split; [intros _; by eexists|].
      intros resp [= <-]. set_solver.
    + split; [done|]. split; [done|]. intros resp [= <-]. set_solver.
    + by repeat split.
  - unfold getObject.
    destruct (Get _ _ _ _ _ _) as [[[[bytes obj]|e|] fs] disk'];
      eexists _, _, _; (split; [reflexivity|]); simpl.
    + split; [done|]. split; [intros _; by eexists|].
      intros resp [= <-]. set_solver.
    + split; [done|]. split; [done|]. intros resp [= <-]. set_solver.
    + by repeat split.
  - unfold deleteObject.
    destruct (Delete _ _ _ _ _) as [[[e|] fs] disk'];
      eexists _, _, _; (split; [reflexivity|]); simpl;
      (split; [done|]); (split; [done|]); intros resp [= <-]; set_solver.
Qed.

End ApiProperties.

(** ** API: the statistics of the store *)

Section StoreStatsProperties.
Import Models Storage Api.

Variable json_Encode_stats : StoreStats → list Byte.byte.

Implicit Types (objects : gmap string StorageObject) (order : list string).

Lemma size_loop (l : list StorageObject) :
  foldl (λ total obj, Int64.int64_wrap (total + Size obj)) 0 l
  = Int64.int64_wrap (foldr Z.add 0 (Size <$> l)).
Proof.
  induction l as [|obj l IH] using rev_ind; [done|].
  rewrite foldl_snoc, IH, fmap_app, list_fmap_singleton, sum_snoc.
  apply int64_wrap_add_l.
Qed.

Lemma tier_loop (l : list StorageObject) (tier : string) :
  foldl (λ (distribution : gmap string Z) obj,
           <[StorageTier obj :=
               Int64.incr (default 0 (distribution !! StorageTier obj))]>
             distribution) ∅ l !! tier
  = if decide (length (filter (λ obj, StorageTier obj = tier) l) = 0%nat)
    then None
    else Some (Int64.int64_wrap
                 (Z.of_nat (length (filter (λ obj, StorageTier obj = tier) l)))).
Proof.
  induction l as [|obj l IH] using rev_ind; [done|].
  rewrite foldl_snoc, filter_app, length_app, filter_cons.
  destruct (decide (StorageTier obj = tier)) as [->|Hne].
  - rewrite lookup_insert_eq, IH. simpl.
    set (n := length (filter (λ obj0, StorageTier obj0 = tier) l)).
    destruct (decide ((n + 1)%nat = 0%nat)) as [Hzero|_]; [lia|].
    destruct (decide (n = 0%nat)) as [->|Hpos]; simpl; [done|].
    unfold Int64.incr. rewrite int64_wrap_add_l. do 2 f_equal. lia.
  - rewrite lookup_insert_ne by done. rewrite IH. simpl.
    by rewrite Nat.add_0_r.
Qed.

(** X21. The statistics of the store do not depend on the order in which
    the snapshot is visited: the total size is the sum of the sizes of all
    objects, and the tier distribution has an entry for exactly the tiers
    that some object has, holding the number of objects of the tier (each
    number reduced to an int64).  [getStats] answers 200 with the encoding
    of these two, the number of objects and the patterns of the tracker. *)
Theorem getStats_spec api order1 order2 order :
  range_order (objects (store api)) order1 →
  range_order (objects (store api)) order2 →
  range_order (objects (store api)) order →
  ∃ total distribution,
    getStats json_Encode_stats api order1 order2
    = mkResponse StatusOK json_header
        (json_Encode_stats
           (mkStoreStats (Z.of_nat (length order)) total distribution
              (patterns api))) ∧
    total
    = Int64.int64_wrap
        (foldr Z.add 0 (Size <$> range_values (objects (store api)) order)) ∧
    ∀ tier,
      distribution !! tier
      = let n := length (filter (λ obj, StorageTier obj = tier)
                           (range_values (objects (store api)) order)) in
        if decide (n = 0%nat) then None
        else Some (Int64.int64_wrap (Z.of_nat n)).
Proof.
  intros Horder1 Horder2 Horder. eexists _, _.
  split; [|split].
  - unfold getStats, List. by rewrite (range_order_length _ _ Horder).
  - unfold calculateTotalSize, List. rewrite size_loop. f_equal.
    apply (foldr_permutation_proper (=) Z.add); [solve_proper|intros; lia|].
    by apply fmap_Permutation, range_values_permutation.
  - intros tier. unfold calculateTierDistribution, List. rewrite tier_loop.
    simpl.
    pose proof (range_values_permutation _ _ _ Horder2 Horder) as Hperm.
    assert (length (filter (λ obj, StorageTier obj = tier)
                      (range_values (objects (store api)) order2))
            = length (filter (λ obj, StorageTier obj = tier)
                        (range_values (objects (store api)) order))) as ->
      by (by rewrite Hperm).
    done.
Qed.

End StoreStatsProperties.

(** ** API: runs on a fresh storage root *)

Section ApiRuns.
Import Models Storage Api StoreExamples ApiExamples.

(** X18, at an upload without a content type. *)
Lemma upload_then_download_witness :
  ∃ obj api1 disk1 header api2 disk2,
    putObject plain_sum plain_marshal plain_marshal_object fresh_server ∅
      upload calm 11
    = (Some (mkResponse StatusOK json_header (plain_marshal_object obj)),
       api1, disk1) ∧
    getObject plain_marshal api1 disk1 upload 20 None 21
    = (Some (mkResponse StatusOK header (content payload)), api2, disk2) ∧
    header !! "Content-Type" = Some "application/octet-stream" ∧
    header !! "Content-Length" = Some "3".
Proof.
  destruct (upload_then_download plain_sum plain_marshal plain_marshal_object
              fresh_server ∅ upload upload calm 11 20 None 21)
    as (obj & api1 & disk1 & header & api2 & disk2 & Hput & Hget & Htype &
        Hlen & _); [apply fresh_rooted|done..|].
  by exists obj, api1, disk1, header, api2, disk2.
Defined.

(** X19, at a download after the payload file was lost, on a host that
    accepts the write of the index document. *)
Lemma download_of_missing_file_witness :
  ∃ api' disk',
    getObject plain_marshal (mkAPIServer stored []) ∅ upload 20 None 21
    = (Some (http_Error
               ("failed to open file: open "
                  +:+ payload_file plain_sum fresh "report.csv" calm
                  +:+ ": no such file or directory") StatusNotFound),
       api', disk') ∧
    patterns api' = [] ∧
    disk' !! metadata_file (store api')
    = Some (plain_marshal (objects (store api'))).
Proof.
  destruct after_put_Returned as (obj & _ & Hkey & _ & _ & _ & _ & Hfiles).
  destruct (download_of_missing_file plain_marshal (mkAPIServer stored []) ∅
              upload 20 None 21 obj _ [] Hkey Hfiles)
    as (api' & disk' & obj' & Hget & Hpatterns & _ & _ & _ & Hdoc & _);
    [done|done|].
  exists api', disk'. split; [done|]. split; [done|]. by apply Hdoc.
Defined.

(** X21, at the store after one upload. *)
Lemma getStats_spec_witness :
  ∃ total distribution,
    getStats plain_marshal_stats (mkAPIServer stored []) ["report.csv"]
      ["report.csv"]
    = mkResponse StatusOK json_header
        (plain_marshal_stats (mkStoreStats 1 total distribution [])) ∧
    total = 3 ∧ distribution !! "hot" = Some 1.
Proof.
  destruct (getStats_spec plain_marshal_stats (mkAPIServer stored [])
              ["report.csv"] ["report.csv"] ["report.csv"])
    as (total & distribution & Hstats & Htotal & Htiers);
    [apply range_order_singleton..|].
  exists total, distribution. split; [done|].
  split; [by rewrite Htotal|]. by rewrite Htiers.
Defined.

End ApiRuns.
